(** * Hortus: the record store and the research client of streamlit_app.py

    A shallow embedding of [init_db], [save_plant], [get_all_plants] and
    [perform_research], together with the parts of the Python runtime they
    call ([json.dumps], [json.loads], the [sqlite3] driver, the
    notifications of the UI toolkit), and the properties of the
    specification checked against them. *)

From Stdlib Require Import ZArith NArith Lia List Bool Ascii String.
From stdpp Require Import base option list gmap strings.

Set Warnings "-register-all".
Local Open Scope N_scope.

(** ** Text

    A Python [str] is a sequence of Unicode code points. *)

Abbreviation pystr := (list N).

Definition str (s : string) : pystr :=
  map (fun a => N_of_ascii a) (list_ascii_of_string s).

(** ** Doubles

    The program only moves IEEE doubles around: it never computes with
    them.  The conversions that the runtime and the storage engine apply
    to a double are an interface of the embedding. *)

Class Float64 := {
  float : Type;
  float_eq_dec :: EqDecision float;
  (** [math.isnan] *)
  float_is_nan : float -> bool;
  (** the text [json.dumps] emits for a double: [float.__repr__], or one of
      NaN, Infinity, -Infinity *)
  float_json : float -> pystr;
  (** [float(s)] on a numeric literal, or on nan, inf, -inf *)
  float_of_str : pystr -> float;
  (** the double nearest to an integer (REAL affinity on an INTEGER) *)
  float_of_int : Z -> float;
  (** the integer a double denotes exactly, when it does and it fits in
      64 bits (NUMERIC affinity on a REAL) *)
  float_exact_int : float -> option Z;
  (** the text the storage engine renders a double as (TEXT affinity) *)
  float_sql_text : float -> pystr;
  (** the double the storage engine reads from a numeric text *)
  float_of_sql_text : pystr -> float;
  (** [f == 0.0], which decides the truth value of a double *)
  float_is_zero : float -> bool
}.

(** ** Exceptions *)

Inductive sqlite_error :=
  | OperationalError (msg : string)
  | IntegrityError (msg : string)
  | ProgrammingError (msg : string)
  | DatabaseError (msg : string).

Inductive exn :=
  | KeyError (k : string)
  | TypeError
  | ValueError
  | OverflowError
  | UnicodeEncodeError
  | JSONDecodeError
  | SqliteError (e : sqlite_error)
  | RemoteError (msg : string).

(** A naive [datetime] (no tzinfo), as [datetime.now()] returns. *)
Record datetime := {
  dt_year : N; dt_month : N; dt_day : N;
  dt_hour : N; dt_minute : N; dt_second : N; dt_microsecond : N
}.

Section Values.
Context `{Float64}.

(** ** Python values *)

Inductive pyval :=
  | PNone
  | PBool (b : bool)
  | PInt (z : Z)
  | PFloat (f : float)
  | PStr (s : pystr)
  | PBytes (b : list N)
  | PList (l : list pyval)
  | PDict (kvs : list (pystr * pyval))
  | PDatetime (d : datetime).

(** ** Decimal and hexadecimal numerals *)

Definition chr_0 : N := 48.

Fixpoint dec_digits (fuel : nat) (n : N) (acc : pystr) : pystr :=
  match fuel with
  | O => acc
  | S f =>
      let acc' := (chr_0 + n mod 10) :: acc in
      if n / 10 =? 0 then acc' else dec_digits f (n / 10) acc'
  end.

(** [str(n)] for a natural number *)
Definition str_of_N (n : N) : pystr :=
  dec_digits (S (N.to_nat (N.log2 n))) n [].

(** [str(z)], which is also [int.__repr__] *)
Definition str_of_Z (z : Z) : pystr :=
  match z with
  | Zneg p => 45 :: str_of_N (Npos p)
  | _ => str_of_N (Z.to_N z)
  end.

Definition hex_digit (d : N) : N :=
  if d <? 10 then chr_0 + d else 87 + d.

(** ['{0:04x}'.format(n)] for [n < 0x10000] *)
Definition hex4 (n : N) : pystr :=
  [hex_digit (n / 4096 mod 16); hex_digit (n / 256 mod 16);
   hex_digit (n / 16 mod 16); hex_digit (n mod 16)].

(** ** json.dumps

    The defaults of [json.dumps]: [ensure_ascii=True], separators
    [", "] and [": "], [allow_nan=True]. *)

Definition backslash_u (n : N) : pystr := 92 :: 117 :: hex4 n.

(** [py_encode_basestring_ascii]: the replacement of one code point *)
Definition escape_char (c : N) : pystr :=
  if c =? 92 then [92; 92]
  else if c =? 34 then [92; 34]
  else if c =? 8 then [92; 98]
  else if c =? 12 then [92; 102]
  else if c =? 10 then [92; 110]
  else if c =? 13 then [92; 114]
  else if c =? 9 then [92; 116]
  else if (32 <=? c) && (c <=? 126) then [c]
  else if c <? 65536 then backslash_u c
  else
    let n := c - 65536 in
    backslash_u (N.lor 55296 (N.land (N.shiftr n 10) 1023))
      ++ backslash_u (N.lor 56320 (N.land n 1023)).

Definition encode_basestring_ascii (s : pystr) : pystr :=
  34 :: concat (map escape_char s) ++ [34].

(** [", ".join(items)] *)
Fixpoint join (sep : pystr) (items : list pystr) : pystr :=
  match items with
  | [] => []
  | [x] => x
  | x :: rest => x ++ sep ++ join sep rest
  end.

(** [mapM] for [option], written out so that it nests in a fixpoint *)
Definition all_some {A B} (f : A -> option B) : list A -> option (list B) :=
  fix go l :=
    match l with
    | [] => Some []
    | x :: r =>
        match f x, go r with
        | Some y, Some ys => Some (y :: ys)
        | _, _ => None
        end
    end.

(** [None] stands for the [TypeError] "Object of type ... is not JSON
    serializable". *)
Fixpoint json_encode (v : pyval) : option pystr :=
  match v with
  | PNone => Some (str "null")
  | PBool true => Some (str "true")
  | PBool false => Some (str "false")
  | PInt z => Some (str_of_Z z)
  | PFloat f => Some (float_json f)
  | PStr s => Some (encode_basestring_ascii s)
  | PBytes _ => None
  | PDatetime _ => None
  | PList l =>
      match all_some json_encode l with
      | Some items => Some (91 :: join (str ", ") items ++ [93])
      | None => None
      end
  | PDict kvs =>
      match all_some (fun kv : pystr * pyval =>
                        match json_encode (snd kv) with
                        | Some t => Some (encode_basestring_ascii (fst kv) ++ str ": " ++ t)
                        | None => None
                        end) kvs with
      | Some items => Some (123 :: join (str ", ") items ++ [125])
      | None => None
      end
  end.

Definition json_dumps (v : pyval) : exn + pystr :=
  match json_encode v with
  | Some t => inr t
  | None => inl TypeError
  end.

(** the text of the elements of an integer list, as [json.dumps] joins
    them *)
Definition int_items (l : list Z) : pystr := join (str ", ") (map str_of_Z l).

(** ** json.loads

    The decoder of the [json] module with its defaults ([strict=True];
    NaN, Infinity and -Infinity accepted).  A result [None] stands for
    [JSONDecodeError]. *)

Definition is_ws (c : N) : bool :=
  (c =? 32) || (c =? 9) || (c =? 10) || (c =? 13).

Fixpoint skip_ws (s : pystr) : pystr :=
  match s with
  | c :: r => if is_ws c then skip_ws r else s
  | [] => []
  end.

Definition is_digit (c : N) : bool := (48 <=? c) && (c <=? 57).

Fixpoint span_digits (s : pystr) : pystr * pystr :=
  match s with
  | c :: r =>
      if is_digit c then let '(ds, rest) := span_digits r in (c :: ds, rest)
      else ([], s)
  | [] => ([], [])
  end.

Definition digit_step (a d : N) : N := 10 * a + (d - chr_0).

Definition digits_value (ds : pystr) : N := fold_left digit_step ds 0.

(** what may follow a run of digits without extending it *)
Definition no_digit_next (rest : pystr) : bool :=
  match rest with
  | [] => true
  | c :: _ => negb (is_digit c)
  end.

(** what may follow an integer literal without turning it into another
    number: no digit, no point, no exponent mark *)
Definition number_end (rest : pystr) : bool :=
  match rest with
  | [] => true
  | c :: _ => negb (is_digit c || (c =? 46) || (c =? 101) || (c =? 69))
  end.

(** [int(text)] on an optional minus sign followed by digits *)
Definition int_of_literal (neg : bool) (ds : pystr) : Z :=
  if neg then (- Z.of_N (digits_value ds))%Z else Z.of_N (digits_value ds).

(** [NUMBER_RE.match]: an optional minus sign; a zero, or a non-zero
    digit and any digits; optionally a point and at least one digit;
    optionally e or E, an optional sign and at least one digit. *)
Definition scan_number (s : pystr) : option (pyval * pystr) :=
  let '(neg, s1) :=
    match s with
    | c :: r => if c =? 45 then (true, r) else (false, s)
    | [] => (false, s)
    end in
  match s1 with
  | d :: r =>
      if is_digit d then
        let '(int_ds, rest) := if d =? 48 then ([d], r) else span_digits s1 in
        let '(frac, rest1) :=
          match rest with
          | c :: r2 =>
              if c =? 46 then
                match span_digits r2 with
                | ([], _) => ([], rest)
                | (fd, r3) => (c :: fd, r3)
                end
              else ([], rest)
          | [] => ([], rest)
          end in
        let '(exp, rest2) :=
          match rest1 with
          | e :: r2 =>
              if (e =? 101) || (e =? 69) then
                let '(sign, r3) :=
                  match r2 with
                  | c :: r' => if (c =? 43) || (c =? 45) then ([c], r') else ([], r2)
                  | [] => ([], r2)
                  end in
                match span_digits r3 with
                | ([], _) => ([], rest1)
                | (ed, r4) => (e :: sign ++ ed, r4)
                end
              else ([], rest1)
          | [] => ([], rest1)
          end in
        match frac, exp with
        | [], [] => Some (PInt (int_of_literal neg int_ds), rest2)
        | _, _ =>
            Some (PFloat (float_of_str
                            ((if neg then [45] else []) ++ int_ds ++ frac ++ exp)),
                  rest2)
        end
      else None
  | [] => None
  end.

Definition unhex (c : N) : option N :=
  if is_digit c then Some (c - 48)
  else if (97 <=? c) && (c <=? 102) then Some (c - 87)
  else if (65 <=? c) && (c <=? 70) then Some (c - 55)
  else None.

(** [_decode_uXXXX] *)
Definition unhex4 (a b c d : N) : option N :=
  match unhex a, unhex b, unhex c, unhex d with
  | Some x, Some y, Some z, Some w => Some (4096 * x + 256 * y + 16 * z + w)
  | _, _, _, _ => None
  end.

(** the [BACKSLASH] table *)
Definition unescape (e : N) : option N :=
  if e =? 34 then Some 34
  else if e =? 92 then Some 92
  else if e =? 47 then Some 47
  else if e =? 98 then Some 8
  else if e =? 102 then Some 12
  else if e =? 110 then Some 10
  else if e =? 114 then Some 13
  else if e =? 116 then Some 9
  else None.

Definition cons_char (c : N) (k : option (pystr * pystr)) : option (pystr * pystr) :=
  match k with
  | Some (t, rest) => Some (c :: t, rest)
  | None => None
  end.

(** [py_scanstring], entered after the opening quote *)
Fixpoint scanstring (s : pystr) : option (pystr * pystr) :=
  match s with
  | [] => None
  | c :: r =>
      if c =? 34 then Some ([], r)
      else if c =? 92 then
        match r with
        | [] => None
        | e :: r1 =>
            if e =? 117 then
              match r1 with
              | h1 :: h2 :: h3 :: h4 :: r2 =>
                  match unhex4 h1 h2 h3 h4 with
                  | None => None
                  | Some uni =>
                      if (55296 <=? uni) && (uni <=? 56319) then
                        match r2 with
                        | b :: u :: g1 :: g2 :: g3 :: g4 :: r3 =>
                            if (b =? 92) && (u =? 117) then
                              match unhex4 g1 g2 g3 g4 with
                              | None => None
                              | Some uni2 =>
                                  if (56320 <=? uni2) && (uni2 <=? 57343) then
                                    cons_char
                                      (65536 + N.lor (N.shiftl (uni - 55296) 10)
                                                     (uni2 - 56320))
                                      (scanstring r3)
                                  else cons_char uni (scanstring r2)
                              end
                            else cons_char uni (scanstring r2)
                        | b :: u :: _ =>
                            if (b =? 92) && (u =? 117) then None
                            else cons_char uni (scanstring r2)
                        | _ => cons_char uni (scanstring r2)
                        end
                      else cons_char uni (scanstring r2)
                  end
              | _ => None
              end
            else
              match unescape e with
              | Some c' => cons_char c' (scanstring r1)
              | None => None
              end
        end
      else if c <? 32 then None
      else cons_char c (scanstring r)
  end.

(** [dict(pairs)]: a repeated key keeps its first position and takes the
    last value *)
Fixpoint dict_set (k : pystr) (v : pyval) (d : list (pystr * pyval))
  : list (pystr * pyval) :=
  match d with
  | [] => [(k, v)]
  | (k', v') :: r =>
      if decide (k = k') then (k, v) :: r else (k', v') :: dict_set k v r
  end.

Fixpoint strip_prefix (p s : pystr) : option pystr :=
  match p, s with
  | [], _ => Some s
  | a :: p', b :: s' => if a =? b then strip_prefix p' s' else None
  | _ :: _, [] => None
  end.

(** [scan_once], [JSONArray] and [JSONObject].  [array_items] is entered
    at the first character of an element, [object_items] just after the
    opening quote of a key. *)
Fixpoint scan_once (fuel : nat) (s : pystr) : option (pyval * pystr) :=
  match fuel with
  | O => None
  | S f =>
      match s with
      | [] => None
      | c :: r =>
          if c =? 34 then
            match scanstring r with
            | Some (t, rest) => Some (PStr t, rest)
            | None => None
            end
          else if c =? 123 then
            match skip_ws r with
            | c1 :: r1 =>
                if c1 =? 125 then Some (PDict [], r1)
                else if c1 =? 34 then object_items f r1 []
                else None
            | [] => None
            end
          else if c =? 91 then
            match skip_ws r with
            | c1 :: r1 =>
                if c1 =? 93 then Some (PList [], r1)
                else array_items f (c1 :: r1) []
            | [] => None
            end
          else
            match strip_prefix (str "null") s,
                  strip_prefix (str "true") s,
                  strip_prefix (str "false") s with
            | Some rest, _, _ => Some (PNone, rest)
            | _, Some rest, _ => Some (PBool true, rest)
            | _, _, Some rest => Some (PBool false, rest)
            | None, None, None =>
                match scan_number s with
                | Some res => Some res
                | None =>
                    match strip_prefix (str "NaN") s,
                          strip_prefix (str "Infinity") s,
                          strip_prefix (str "-Infinity") s with
                    | Some rest, _, _ => Some (PFloat (float_of_str (str "nan")), rest)
                    | _, Some rest, _ => Some (PFloat (float_of_str (str "inf")), rest)
                    | _, _, Some rest => Some (PFloat (float_of_str (str "-inf")), rest)
                    | None, None, None => None
                    end
                end
            end
      end
  end
with array_items (fuel : nat) (s : pystr) (acc : list pyval)
  : option (pyval * pystr) :=
  match fuel with
  | O => None
  | S f =>
      match scan_once f s with
      | None => None
      | Some (v, rest) =>
          match skip_ws rest with
          | c :: r =>
              if c =? 93 then Some (PList (rev (v :: acc)), r)
              else if c =? 44 then array_items f (skip_ws r) (v :: acc)
              else None
          | [] => None
          end
      end
  end
with object_items (fuel : nat) (s : pystr) (acc : list (pystr * pyval))
  : option (pyval * pystr) :=
  match fuel with
  | O => None
  | S f =>
      match scanstring s with
      | None => None
      | Some (key, rest) =>
          match skip_ws rest with
          | c :: r =>
              if c =? 58 then
                match scan_once f (skip_ws r) with
                | None => None
                | Some (v, rest1) =>
                    let acc' := dict_set key v acc in
                    match skip_ws rest1 with
                    | c1 :: r1 =>
                        if c1 =? 125 then Some (PDict acc', r1)
                        else if c1 =? 44 then
                          match skip_ws r1 with
                          | q :: r2 => if q =? 34 then object_items f r2 acc' else None
                          | [] => None
                          end
                        else None
                    | [] => None
                    end
                end
              else None
          | [] => None
          end
      end
  end.

(** [json.loads(s)] for a [str] argument: no byte-order mark, one value
    between optional white space, nothing after it. *)
Definition starts_with_bom (s : pystr) : bool :=
  match s with
  | c :: _ => c =? 65279
  | [] => false
  end.

Definition json_loads (s : pystr) : exn + pyval :=
  if starts_with_bom s then inl JSONDecodeError
  else
    match scan_once (2 * length s + 2) (skip_ws s) with
    | Some (v, rest) =>
        match skip_ws rest with
        | [] => inr v
        | _ :: _ => inl JSONDecodeError
        end
    | None => inl JSONDecodeError
    end.

(** ** The storage engine

    Storage classes, the adaptation of Python parameters by the [sqlite3]
    driver, and the type affinity of a column. *)

Inductive sqlval :=
  | SNull
  | SInt (z : Z)
  | SReal (f : float)
  | SText (s : pystr)
  | SBlob (b : list N).

#[export] Instance sqlval_eq_dec : EqDecision sqlval.
Proof. solve_decision. Defined.

Inductive affinity := AffText | AffNumeric | AffInteger | AffReal | AffBlob.

(** zero-padded decimal, ["%0<width>d" % n] *)
Definition pad_dec (width : nat) (n : N) : pystr :=
  let ds := str_of_N n in
  List.repeat chr_0 (width - length ds) ++ ds.

(** [d.isoformat(" ")], the text the default adapter of the driver binds *)
Definition isoformat (d : datetime) : pystr :=
  pad_dec 4 (dt_year d) ++ [45] ++ pad_dec 2 (dt_month d) ++ [45]
    ++ pad_dec 2 (dt_day d) ++ [32]
    ++ pad_dec 2 (dt_hour d) ++ [58] ++ pad_dec 2 (dt_minute d) ++ [58]
    ++ pad_dec 2 (dt_second d)
    ++ (if dt_microsecond d =? 0 then [] else 46 :: pad_dec 6 (dt_microsecond d)).

(** a code point that UTF-8 cannot encode *)
Definition is_surrogate (c : N) : bool := (55296 <=? c) && (c <=? 57343).

Definition int64_ok (z : Z) : bool :=
  ((- 2 ^ 63 <=? z) && (z <? 2 ^ 63))%Z.

(** The binding of one parameter of [cursor.execute]. *)
Definition adapt (v : pyval) : exn + sqlval :=
  match v with
  | PNone => inr SNull
  | PBool b => inr (SInt (if b then 1 else 0))
  | PInt z => if int64_ok z then inr (SInt z) else inl OverflowError
  | PFloat f => inr (if float_is_nan f then SNull else SReal f)
  | PStr s => if existsb is_surrogate s then inl UnicodeEncodeError else inr (SText s)
  | PBytes b => inr (SBlob b)
  | PDatetime d => inr (SText (isoformat d))
  | PList _ | PDict _ =>
      inl (SqliteError (ProgrammingError "Error binding parameter: type is not supported"))
  end.

Fixpoint adapt_all (vs : list pyval) : exn + list sqlval :=
  match vs with
  | [] => inr []
  | v :: r =>
      match adapt v with
      | inl e => inl e
      | inr c =>
          match adapt_all r with
          | inl e => inl e
          | inr cs => inr (c :: cs)
          end
      end
  end.

Definition is_sql_space (c : N) : bool :=
  (c =? 32) || ((9 <=? c) && (c <=? 13)).

Fixpoint skip_sql_space (s : pystr) : pystr :=
  match s with
  | c :: r => if is_sql_space c then skip_sql_space r else s
  | [] => []
  end.

(** The class of a text under a numeric affinity: [Some true] a
    well-formed integer literal, [Some false] a well-formed real literal,
    [None] not a number (the text is kept). *)
Definition sql_numeric_class (s : pystr) : option bool :=
  let s0 := skip_sql_space s in
  let s1 :=
    match s0 with
    | c :: r => if (c =? 45) || (c =? 43) then r else s0
    | [] => s0
    end in
  let '(ids, rest) := span_digits s1 in
  let '(fds, has_point, rest1) :=
    match rest with
    | c :: r =>
        if c =? 46 then let '(fd, r') := span_digits r in (fd, true, r')
        else ([], false, rest)
    | [] => ([], false, rest)
    end in
  match ids ++ fds with
  | [] => None
  | _ :: _ =>
      let '(has_exp, rest2) :=
        match rest1 with
        | e :: r =>
            if (e =? 101) || (e =? 69) then
              let r1 :=
                match r with
                | c :: r' => if (c =? 45) || (c =? 43) then r' else r
                | [] => r
                end in
              match span_digits r1 with
              | ([], _) => (false, rest1)
              | (_, r2) => (true, r2)
              end
            else (false, rest1)
        | [] => (false, rest1)
        end in
      match skip_sql_space rest2 with
      | [] => Some (negb (has_point || has_exp))
      | _ :: _ => None
      end
  end.

(** the value of an integer literal between optional white space *)
Definition sql_int_of_text (s : pystr) : Z :=
  match skip_sql_space s with
  | c :: r =>
      if c =? 45 then int_of_literal true (fst (span_digits r))
      else if c =? 43 then int_of_literal false (fst (span_digits r))
      else int_of_literal false (fst (span_digits (c :: r)))
  | [] => 0%Z
  end.

(** a double is stored as an integer when it denotes one exactly *)
Definition real_to_numeric (f : float) : sqlval :=
  match float_exact_int f with
  | Some z => SInt z
  | None => SReal f
  end.

Definition text_to_numeric (s : pystr) : sqlval :=
  match sql_numeric_class s with
  | None => SText s
  | Some true =>
      if int64_ok (sql_int_of_text s) then SInt (sql_int_of_text s)
      else real_to_numeric (float_of_sql_text s)
  | Some false => real_to_numeric (float_of_sql_text s)
  end.

(** The value a column of the given affinity keeps for a bound value. *)
Definition apply_affinity (a : affinity) (v : sqlval) : sqlval :=
  match a, v with
  | AffText, SInt z => SText (str_of_Z z)
  | AffText, SReal f => SText (float_sql_text f)
  | (AffNumeric | AffInteger), SText s => text_to_numeric s
  | (AffNumeric | AffInteger), SReal f => real_to_numeric f
  | AffReal, SInt z => SReal (float_of_int z)
  | AffReal, SText s =>
      match text_to_numeric s with
      | SInt z => SReal (float_of_int z)
      | c => c
      end
  | _, _ => v
  end.

(** ** The table of init_db *)

Record column := {
  col_name : string;
  col_decl : string;
  col_affinity : affinity;
  col_pk : bool
}.

Definition text_col (n : string) : column :=
  {| col_name := n; col_decl := "TEXT"; col_affinity := AffText; col_pk := false |}.

(** The columns of [CREATE TABLE IF NOT EXISTS plants], in order.  The
    declared types BOOLEAN and TIMESTAMP have numeric affinity. *)
Definition plants_columns : list column :=
  [ {| col_name := "id"; col_decl := "TEXT"; col_affinity := AffText; col_pk := true |};
    text_col "common_name";
    text_col "scientific_name";
    text_col "usda_zones";
    {| col_name := "min_temp"; col_decl := "REAL"; col_affinity := AffReal; col_pk := false |};
    {| col_name := "max_temp"; col_decl := "REAL"; col_affinity := AffReal; col_pk := false |};
    text_col "drought_tolerance";
    text_col "watering_requirements";
    text_col "watering_frequency";
    text_col "sunlight";
    text_col "soil_type";
    text_col "fertilization_schedule";
    text_col "notes";
    text_col "herbal_benefits";
    text_col "herbal_properties";
    text_col "herbal_dosage";
    text_col "herbal_notes";
    {| col_name := "is_wishlist"; col_decl := "BOOLEAN"; col_affinity := AffNumeric; col_pk := false |};
    {| col_name := "date_added"; col_decl := "TIMESTAMP"; col_affinity := AffNumeric; col_pk := false |};
    text_col "images";
    text_col "grounding_sources" ].

Abbreviation row := (list sqlval).

(** the cells of the primary key columns of a row *)
Fixpoint key_of (cols : list column) (r : row) : list sqlval :=
  match cols, r with
  | c :: cols', v :: r' =>
      if col_pk c then v :: key_of cols' r' else key_of cols' r'
  | _, _ => []
  end.

(** Two rows conflict on the primary key when their keys are equal and
    hold no NULL: NULLs are distinct from each other. *)
Definition conflicts (cols : list column) (new old : row) : bool :=
  bool_decide (key_of cols new = key_of cols old)
    && forallb (fun v => negb (bool_decide (v = SNull))) (key_of cols new).

(** [INSERT OR REPLACE]: the conflicting rows are deleted, the new row is
    appended. *)
Definition insert_or_replace (cols : list column) (new : row) (rows : list row)
  : list row :=
  List.filter (fun old => negb (conflicts cols new old)) rows ++ [new].

Fixpoint store_row (cols : list column) (cells : list sqlval) : row :=
  match cols, cells with
  | c :: cols', v :: cells' => apply_affinity (col_affinity c) v :: store_row cols' cells'
  | _, _ => []
  end.

End Values.

Arguments pyval {_}.
Arguments sqlval {_}.

Abbreviation row := (list sqlval).

(** ** The process: store, connections, notifications, network

    One database file holds the table [plants], if it was created; the
    table, when present, is the one [init_db] creates. *)

Inductive notification :=
  | StError (prefix : string) (e : exn)
  | StWarning (msg : string).

Record world `{Float64} := {
  (** the committed rows of [plants], in rowid order; [None]: no table *)
  db_table : option (list (list sqlval));
  (** connections opened and not closed *)
  open_conns : nat;
  (** what [st.error] and [st.warning] have shown, oldest first *)
  st_log : list notification;
  (** the prompts sent to the remote model, oldest first *)
  net_calls : list pystr
}.

(** What the program reads from outside: the failures of the storage
    layer at each driver call, the two configuration sources, and the
    answer of the remote model to a prompt. *)
Record env `{Float64} := {
  connect_fault : option sqlite_error;
  execute_fault : option sqlite_error;
  commit_fault : option sqlite_error;
  query_fault : option sqlite_error;
  secrets : gmap string pyval;
  environ : gmap string pystr;
  remote : pystr -> exn + pystr
}.

(** A computation runs on the world and either returns or raises. *)
Definition M `{Float64} (A : Type) : Type := world -> (exn + A) * world.

Definition ret `{Float64} {A} (a : A) : M A := fun w => (inr a, w).

Definition raise `{Float64} {A} (e : exn) : M A := fun w => (inl e, w).

Definition bind `{Float64} {A B} (m : M A) (k : A -> M B) : M B :=
  fun w =>
    match m w with
    | (inr a, w') => k a w'
    | (inl e, w') => (inl e, w')
    end.

(** [try: m except Exception as e: h e] *)
Definition try_except `{Float64} {A} (m : M A) (h : exn -> M A) : M A :=
  fun w =>
    match m w with
    | (inl e, w') => h e w'
    | r => r
    end.

Definition lift `{Float64} {A} (r : exn + A) : M A :=
  match r with
  | inl e => raise e
  | inr a => ret a
  end.

Notation "'let*' x := m 'in' k" := (bind m (fun x => k))
  (at level 10, x name, m at level 100, k at level 200).

Section Store.
Context `{Float64}.

Definition set_table (t : option (list row)) : M unit :=
  fun w => (inr tt, {| db_table := t; open_conns := open_conns w;
                       st_log := st_log w; net_calls := net_calls w |}).

Definition set_open (n : nat) : M unit :=
  fun w => (inr tt, {| db_table := db_table w; open_conns := n;
                       st_log := st_log w; net_calls := net_calls w |}).

Definition notify (n : notification) : M unit :=
  fun w => (inr tt, {| db_table := db_table w; open_conns := open_conns w;
                       st_log := st_log w ++ [n]; net_calls := net_calls w |}).

Definition record_call (prompt : pystr) : M unit :=
  fun w => (inr tt, {| db_table := db_table w; open_conns := open_conns w;
                       st_log := st_log w; net_calls := net_calls w ++ [prompt] |}).

Definition get_world : M world := fun w => (inr w, w).

(** the world with another count of open connections, another table,
    one more notification *)
Definition with_open (n : nat) (w : world) : world :=
  {| db_table := db_table w; open_conns := n;
     st_log := st_log w; net_calls := net_calls w |}.

Definition with_table (t : option (list row)) (w : world) : world :=
  {| db_table := t; open_conns := open_conns w;
     st_log := st_log w; net_calls := net_calls w |}.

Definition with_note (n : notification) (w : world) : world :=
  {| db_table := db_table w; open_conns := open_conns w;
     st_log := st_log w ++ [n]; net_calls := net_calls w |}.

Definition fault (f : option sqlite_error) : M unit :=
  match f with
  | Some e => raise (SqliteError e)
  | None => ret tt
  end.

(** *** The driver

    A connection sees the committed table, or the table of the
    transaction it has open. *)
Record connection := {
  txn : option (option (list row))
}.

Definition DB_NAME : string := "hortus_v2.db".

(** [sqlite3.connect(DB_NAME)] *)
Definition sqlite3_connect (e : env) (name : string) : M connection :=
  let* _ := fault (connect_fault e) in
  let* w := get_world in
  let* _ := set_open (S (open_conns w)) in
  ret {| txn := None |}.

Definition conn_view (conn : connection) : M (option (list row)) :=
  match txn conn with
  | Some t => ret t
  | None => let* w := get_world in ret (db_table w)
  end.

(** [execute] of CREATE TABLE IF NOT EXISTS plants: the driver opens no
    transaction for it, so the statement takes effect at once. *)
Definition execute_create_table (e : env) (conn : connection) : M connection :=
  let* _ := fault (execute_fault e) in
  let* t := conn_view conn in
  match t with
  | Some _ => ret conn
  | None =>
      match txn conn with
      | Some _ => ret {| txn := Some (Some []) |}
      | None => let* _ := set_table (Some []) in ret conn
      end
  end.

(** [execute] of INSERT OR REPLACE INTO plants VALUES (21 placeholders):
    the statement is prepared against the table, the parameters are
    bound, a transaction is opened and the row is written in it. *)
Definition execute_insert_or_replace (e : env) (conn : connection)
    (params : list pyval) : M connection :=
  let* t := conn_view conn in
  match t with
  | None => raise (SqliteError (OperationalError "no such table: plants"))
  | Some rows =>
      if negb (length params =? length plants_columns)%nat then
        raise (SqliteError (ProgrammingError "Incorrect number of bindings supplied"))
      else
        let* cells := lift (adapt_all params) in
        let* _ := fault (execute_fault e) in
        ret {| txn := Some (Some (insert_or_replace plants_columns
                                    (store_row plants_columns cells) rows)) |}
  end.

(** [conn.commit()] *)
Definition conn_commit (e : env) (conn : connection) : M connection :=
  match txn conn with
  | None => ret conn
  | Some t =>
      let* _ := fault (commit_fault e) in
      let* _ := set_table t in
      ret {| txn := None |}
  end.

(** [conn.close()]: a transaction still open is rolled back *)
Definition conn_close (conn : connection) : M unit :=
  let* w := get_world in
  set_open (pred (open_conns w)).

(** *** init_db *)

Definition init_db (e : env) : M unit :=
  let* conn := sqlite3_connect e DB_NAME in
  let* conn := execute_create_table e conn in
  let* conn := conn_commit e conn in
  conn_close conn.

(** *** save_plant *)

(** [p[k]] *)
Definition getitem (p : gmap string pyval) (k : string) : M pyval :=
  match p !! k with
  | Some v => ret v
  | None => raise (KeyError k)
  end.

(** [p.get(k, d)] *)
Definition get_default (p : gmap string pyval) (k : string) (d : pyval) : pyval :=
  match p !! k with
  | Some v => v
  | None => d
  end.

(** [json.dumps(v)] as a parameter *)
Definition dumps (v : pyval) : M pyval :=
  let* t := lift (json_dumps v) in ret (PStr t).

(** The tuple of parameters of the statement, its items evaluated from
    left to right. *)
Definition insert_params (p : gmap string pyval) : M (list pyval) :=
  let* id := getitem p "id" in
  let* common_name := getitem p "common_name" in
  let* scientific_name := getitem p "scientific_name" in
  let* zones := getitem p "usda_zones" in
  let* usda_zones := dumps zones in
  let* min_temp := getitem p "min_temp" in
  let* max_temp := getitem p "max_temp" in
  let* drought_tolerance := getitem p "drought_tolerance" in
  let* watering_requirements := getitem p "watering_requirements" in
  let* watering_frequency := getitem p "watering_frequency" in
  let* sunlight := getitem p "sunlight" in
  let* soil_type := getitem p "soil_type" in
  let* fertilization_schedule := getitem p "fertilization_schedule" in
  let* notes := getitem p "notes" in
  let* herbal_benefits := getitem p "herbal_benefits" in
  let* herbal_properties := getitem p "herbal_properties" in
  let* herbal_dosage := getitem p "herbal_dosage" in
  let* herbal_notes := getitem p "herbal_notes" in
  let* is_wishlist := getitem p "is_wishlist" in
  let* date_added := getitem p "date_added" in
  let* images := dumps (get_default p "images" (PList [])) in
  let* grounding_sources := dumps (get_default p "grounding_sources" (PList [])) in
  ret [ id; common_name; scientific_name; usda_zones;
        min_temp; max_temp; drought_tolerance; watering_requirements;
        watering_frequency; sunlight; soil_type; fertilization_schedule;
        notes; herbal_benefits; herbal_properties; herbal_dosage;
        herbal_notes; is_wishlist; date_added; images;
        grounding_sources ].

Definition save_plant (e : env) (p : gmap string pyval) : M unit :=
  let* conn := sqlite3_connect e DB_NAME in
  (* c = conn.cursor() *)
  let* params := insert_params p in
  let* conn := execute_insert_or_replace e conn params in
  let* conn := conn_commit e conn in
  conn_close conn.

(** *** get_all_plants *)

(** The table [pd.read_sql_query] returns: the column names and, for
    each row, the Python objects the driver fetches.  The column dtypes
    that pandas infers afterwards are not part of the embedding. *)
Record dataframe := {
  df_columns : list string;
  df_rows : list (list pyval)
}.

(** [pd.DataFrame()] *)
Definition empty_frame : dataframe := {| df_columns := []; df_rows := [] |}.

(** [df.empty] *)
Definition df_empty (df : dataframe) : bool :=
  match df_columns df, df_rows df with
  | [], _ | _, [] => true
  | _, _ => false
  end.

Definition fetch (v : sqlval) : pyval :=
  match v with
  | SNull => PNone
  | SInt z => PInt z
  | SReal f => PFloat f
  | SText s => PStr s
  | SBlob b => PBytes b
  end.

(** [pd.read_sql_query("SELECT * FROM plants", conn)] *)
Definition read_sql_query (e : env) (conn : connection) : M dataframe :=
  let* _ := fault (query_fault e) in
  let* t := conn_view conn in
  match t with
  | None => raise (SqliteError (DatabaseError "no such table: plants"))
  | Some rows =>
      ret {| df_columns := map col_name plants_columns;
             df_rows := map (map fetch) rows |}
  end.

Fixpoint index_of (k : string) (l : list string) : option nat :=
  match l with
  | [] => None
  | x :: r => if decide (x = k) then Some O else S <$> index_of k r
  end.

(** [lambda x: json.loads(x) if isinstance(x, str) else x] *)
Definition loads_if_str (x : pyval) : exn + pyval :=
  match x with
  | PStr s => json_loads s
  | _ => inr x
  end.

Fixpoint apply_rows (f : pyval -> exn + pyval) (i : nat) (rows : list (list pyval))
  : exn + list (list pyval) :=
  match rows with
  | [] => inr []
  | r :: rest =>
      match r !! i with
      | None =>
          match apply_rows f i rest with
          | inl e => inl e
          | inr rest' => inr (r :: rest')
          end
      | Some x =>
          match f x with
          | inl e => inl e
          | inr y =>
              match apply_rows f i rest with
              | inl e => inl e
              | inr rest' => inr (<[i := y]> r :: rest')
              end
          end
      end
  end.

(** [df[k] = df[k].apply(f)] *)
Definition apply_column (df : dataframe) (k : string) (f : pyval -> exn + pyval)
  : exn + dataframe :=
  match index_of k (df_columns df) with
  | None => inl (KeyError k)
  | Some i =>
      match apply_rows f i (df_rows df) with
      | inl e => inl e
      | inr rows => inr {| df_columns := df_columns df; df_rows := rows |}
      end
  end.

Definition get_all_plants (e : env) : M dataframe :=
  try_except
    (let* conn := sqlite3_connect e DB_NAME in
     let* df := read_sql_query e conn in
     let* _ := conn_close conn in
     lift (apply_column df "usda_zones" loads_if_str))
    (fun ex =>
       let* _ := notify (StError "Vault Read Error: " ex) in
       ret empty_frame).

(** *** perform_research *)

(** the truth value of a Python object *)
Definition truthy (v : pyval) : bool :=
  match v with
  | PNone => false
  | PBool b => b
  | PInt z => negb (z =? 0)%Z
  | PFloat f => negb (float_is_zero f)
  | PStr s => negb (bool_decide (s = []))
  | PBytes b => negb (bool_decide (b = []))
  | PList l => match l with [] => false | _ => true end
  | PDict d => match d with [] => false | _ => true end
  | PDatetime _ => true
  end.

(** [a or b] *)
Definition py_or (a b : pyval) : pyval := if truthy a then a else b.

(** [os.environ.get(k)] and [st.secrets.get(k)] *)
Definition environ_get (e : env) (k : string) : pyval :=
  match environ e !! k with
  | Some s => PStr s
  | None => PNone
  end.

Definition secrets_get (e : env) (k : string) : pyval :=
  match secrets e !! k with
  | Some v => v
  | None => PNone
  end.

Definition nl : pystr := [10].

(** the f-string of the prompt *)
Definition prompt_of (common scientific description : pystr) : pystr :=
  nl ++ str "    Botanical Analysis Protocol for: " ++ common ++ str " "
     ++ scientific ++ str "." ++ nl
     ++ str "    Clues: " ++ description ++ nl
     ++ str "    Return JSON only: common_name, scientific_name, usda_zones (int list), min_temp (F), max_temp (F), " ++ nl
     ++ str "    drought_tolerance, watering_requirements, watering_frequency, sunlight, soil_type, " ++ nl
     ++ str "    fertilization_schedule, herbal_benefits, herbal_properties, herbal_dosage, herbal_notes, notes." ++ nl
     ++ str "    ".

(** [model.generate_content(prompt, ...)] followed by [response.text] *)
Definition generate_content (e : env) (prompt : pystr) : M pystr :=
  let* _ := record_call prompt in
  lift (remote e prompt).

Definition perform_research (e : env) (common scientific description : pystr)
  : M pyval :=
  let api_key := py_or (secrets_get e "API_KEY") (environ_get e "API_KEY") in
  if negb (truthy api_key) then
    let* _ := notify (StWarning "API_KEY not found in Secrets or Environment. Research capabilities are offline.") in
    ret PNone
  else
    let prompt := prompt_of common scientific description in
    try_except
      (let* text := generate_content e prompt in
       lift (json_loads text))
      (fun ex =>
         let* _ := notify (StError "AI Core Failure: " ex) in
         ret PNone).

(** ** Records of the data model

    A fully-populated record with every field of its declared type, and
    the dictionary that carries it to [save_plant]. *)

Record plant := {
  p_id : pystr;
  p_common_name : pystr;
  p_scientific_name : pystr;
  p_usda_zones : list Z;
  p_min_temp : float;
  p_max_temp : float;
  p_drought_tolerance : pystr;
  p_watering_requirements : pystr;
  p_watering_frequency : pystr;
  p_sunlight : pystr;
  p_soil_type : pystr;
  p_fertilization_schedule : pystr;
  p_notes : pystr;
  p_herbal_benefits : pystr;
  p_herbal_properties : pystr;
  p_herbal_dosage : pystr;
  p_herbal_notes : pystr;
  p_is_wishlist : bool;
  p_date_added : datetime;
  p_images : list pystr;
  p_grounding_sources : list pystr
}.

(** the values of the record, in the order of the columns *)
Definition values_of (r : plant) : list pyval :=
  [ PStr (p_id r); PStr (p_common_name r); PStr (p_scientific_name r);
    PList (map PInt (p_usda_zones r));
    PFloat (p_min_temp r); PFloat (p_max_temp r);
    PStr (p_drought_tolerance r); PStr (p_watering_requirements r);
    PStr (p_watering_frequency r); PStr (p_sunlight r); PStr (p_soil_type r);
    PStr (p_fertilization_schedule r); PStr (p_notes r);
    PStr (p_herbal_benefits r); PStr (p_herbal_properties r);
    PStr (p_herbal_dosage r); PStr (p_herbal_notes r);
    PBool (p_is_wishlist r); PDatetime (p_date_added r);
    PList (map PStr (p_images r)); PList (map PStr (p_grounding_sources r)) ].

Definition to_dict (r : plant) : gmap string pyval :=
  list_to_map (zip (map col_name plants_columns) (values_of r)).

(** the text [json.dumps] gives a list of strings *)
Definition str_items (l : list pystr) : pystr :=
  91 :: join (str ", ") (map encode_basestring_ascii l) ++ [93].

(** the row the table keeps for a record *)
Definition stored_row (r : plant) : row :=
  [ SText (p_id r); SText (p_common_name r); SText (p_scientific_name r);
    SText (91 :: int_items (p_usda_zones r) ++ [93]);
    SReal (p_min_temp r); SReal (p_max_temp r);
    SText (p_drought_tolerance r); SText (p_watering_requirements r);
    SText (p_watering_frequency r); SText (p_sunlight r); SText (p_soil_type r);
    SText (p_fertilization_schedule r); SText (p_notes r);
    SText (p_herbal_benefits r); SText (p_herbal_properties r);
    SText (p_herbal_dosage r); SText (p_herbal_notes r);
    SInt (if p_is_wishlist r then 1 else 0);
    SText (isoformat (p_date_added r));
    SText (str_items (p_images r)); SText (str_items (p_grounding_sources r)) ].

(** the row [get_all_plants] returns for a stored record *)
Definition read_row (r : plant) : list pyval :=
  [ PStr (p_id r); PStr (p_common_name r); PStr (p_scientific_name r);
    PList (map PInt (p_usda_zones r));
    PFloat (p_min_temp r); PFloat (p_max_temp r);
    PStr (p_drought_tolerance r); PStr (p_watering_requirements r);
    PStr (p_watering_frequency r); PStr (p_sunlight r); PStr (p_soil_type r);
    PStr (p_fertilization_schedule r); PStr (p_notes r);
    PStr (p_herbal_benefits r); PStr (p_herbal_properties r);
    PStr (p_herbal_dosage r); PStr (p_herbal_notes r);
    PInt (if p_is_wishlist r then 1 else 0);
    PStr (isoformat (p_date_added r));
    PStr (str_items (p_images r)); PStr (str_items (p_grounding_sources r)) ].

(** text that UTF-8 can encode *)
Definition encodable (s : pystr) : bool := negb (existsb is_surrogate s).

(** text made of ASCII characters only *)
Definition is_ascii (s : pystr) : bool := forallb (fun c => c <? 128) s.

(** the parameters [save_plant] binds for a record *)
Definition params_of (r : plant) : list pyval :=
  [ PStr (p_id r); PStr (p_common_name r); PStr (p_scientific_name r);
    PStr (91 :: int_items (p_usda_zones r) ++ [93]);
    PFloat (p_min_temp r); PFloat (p_max_temp r);
    PStr (p_drought_tolerance r); PStr (p_watering_requirements r);
    PStr (p_watering_frequency r); PStr (p_sunlight r); PStr (p_soil_type r);
    PStr (p_fertilization_schedule r); PStr (p_notes r);
    PStr (p_herbal_benefits r); PStr (p_herbal_properties r);
    PStr (p_herbal_dosage r); PStr (p_herbal_notes r);
    PBool (p_is_wishlist r); PDatetime (p_date_added r);
    PStr (str_items (p_images r)); PStr (str_items (p_grounding_sources r)) ].

(** A record the driver can bind as it is: every text is encodable and
    the temperatures are numbers. *)
Definition storable (r : plant) : bool :=
  forallb encodable
    [ p_id r; p_common_name r; p_scientific_name r; p_drought_tolerance r;
      p_watering_requirements r; p_watering_frequency r; p_sunlight r;
      p_soil_type r; p_fertilization_schedule r; p_notes r;
      p_herbal_benefits r; p_herbal_properties r; p_herbal_dosage r;
      p_herbal_notes r ]
  && negb (float_is_nan (p_min_temp r)) && negb (float_is_nan (p_max_temp r)).

(** the position of the column [usda_zones] *)
Definition zones_col : nat := 3.

(** a stored row whose [usda_zones] cell, if it is text, is JSON *)
Definition row_readable (r : row) : bool :=
  match r !! zones_col with
  | Some (SText s) =>
      match json_loads s with
      | inr _ => true
      | inl _ => false
      end
  | _ => true
  end.

(** a stored row, a returned row, whose [id] cell is the given text *)
Definition row_has_id (i : pystr) (r : row) : bool :=
  match r with
  | SText s :: _ => bool_decide (s = i)
  | _ => false
  end.

Definition has_id (i : pystr) (r : list pyval) : bool :=
  match r with
  | PStr s :: _ => bool_decide (s = i)
  | _ => false
  end.

(** what a returned row keeps of the stored row: every cell but the
    one of [usda_zones] is the fetched cell *)
Definition fetched_but_zones (srow : row) (prow : list pyval) : Prop :=
  forall j, j <> zones_col -> prow !! j = fetch <$> srow !! j.

(** the positions of the columns [images] and [grounding_sources] *)
Definition images_col : nat := 19.
Definition sources_col : nat := 20.

(** the record with no images and no grounding sources *)
Definition no_media (r : plant) : plant :=
  {| p_id := p_id r; p_common_name := p_common_name r;
     p_scientific_name := p_scientific_name r; p_usda_zones := p_usda_zones r;
     p_min_temp := p_min_temp r; p_max_temp := p_max_temp r;
     p_drought_tolerance := p_drought_tolerance r;
     p_watering_requirements := p_watering_requirements r;
     p_watering_frequency := p_watering_frequency r;
     p_sunlight := p_sunlight r; p_soil_type := p_soil_type r;
     p_fertilization_schedule := p_fertilization_schedule r;
     p_notes := p_notes r; p_herbal_benefits := p_herbal_benefits r;
     p_herbal_properties := p_herbal_properties r;
     p_herbal_dosage := p_herbal_dosage r; p_herbal_notes := p_herbal_notes r;
     p_is_wishlist := p_is_wishlist r; p_date_added := p_date_added r;
     p_images := []; p_grounding_sources := [] |}.

(** [m] run [n] times in a row *)
Fixpoint repeat_m (n : nat) (m : M unit) : M unit :=
  match n with
  | O => ret tt
  | S k => let* _ := m in repeat_m k m
  end.

(** the world once the table is ensured *)
Definition ensured (w : world) : world :=
  with_table (Some (match db_table w with Some rows => rows | None => [] end)) w.

(** the warning of [perform_research] *)
Definition offline_warning : notification :=
  StWarning "API_KEY not found in Secrets or Environment. Research capabilities are offline.".

(** the world after one call to the remote model and one notification *)
Definition after_failed_call (prompt : pystr) (ex : exn) (w : world) : world :=
  {| db_table := db_table w; open_conns := open_conns w;
     st_log := st_log w ++ [StError "AI Core Failure: " ex];
     net_calls := net_calls w ++ [prompt] |}.

(** a computation that leaves the world as it is *)
Definition pure {A} (m : M A) : Prop := forall w, snd (m w) = w.

(** the fields [save_plant] reads with [p[...]] *)
Definition required_fields : list string :=
  [ "id"; "common_name"; "scientific_name"; "usda_zones"; "min_temp";
    "max_temp"; "drought_tolerance"; "watering_requirements";
    "watering_frequency"; "sunlight"; "soil_type"; "fertilization_schedule";
    "notes"; "herbal_benefits"; "herbal_properties"; "herbal_dosage";
    "herbal_notes"; "is_wishlist"; "date_added" ].

(** what the [usda_zones] cell of a returned row is, given the stored
    cell: the decoded text, or the fetched cell when it is not text *)
Definition zones_cell_of (stored : option sqlval) (got : option pyval) : Prop :=
  match stored with
  | Some (SText s) => exists v, json_loads s = inr v /\ got = Some v
  | Some c => got = Some (fetch c)
  | None => got = None
  end.

(** a computation whose final world is related to its initial world *)
Definition respects {A} (R : world -> world -> Prop) (m : M A) : Prop :=
  forall w, R w (snd (m w)).

(** nothing sent to the remote model, the table as it was *)
Definition quiet_on_store_and_net (w w' : world) : Prop :=
  db_table w' = db_table w /\ net_calls w' = net_calls w.

(** the table and the connections as they were *)
Definition store_untouched (w w' : world) : Prop :=
  db_table w' = db_table w /\ open_conns w' = open_conns w.

(** an environment in which the storage layer does not fail *)
Definition healthy (e : env) : bool :=
  match connect_fault e, execute_fault e, commit_fault e, query_fault e with
  | None, None, None, None => true
  | _, _, _, _ => false
  end.

End Store.

(** ** The Research Lab page

    The handler of the form of the Research Lab: what the page does when
    the form is submitted. *)

Section Page.
Context `{Float64}.

(** what the page itself shows, in order *)
Inductive page_event :=
  | PageError (msg : string)
  | PageSuccess (prefix : string) (v : pyval)
  | PageBalloons.

(** the two readings of the clock in the handler: the text of
    [datetime.now().timestamp()] and [datetime.now()] *)
Record clock := {
  now_timestamp : pystr;
  now : datetime
}.

(** the key of a dictionary as a field name, when it can be one *)
Definition string_of_pystr (k : pystr) : option string :=
  if forallb (fun c => c <? 256) k
  then Some (string_of_list_ascii (map ascii_of_N k))
  else None.

(** [d[k]] for a field name [k] *)
Fixpoint dict_get (k : pystr) (d : list (pystr * pyval)) : option pyval :=
  match d with
  | [] => None
  | (k', v) :: r => if decide (k = k') then Some v else dict_get k r
  end.

(** The dictionary as [save_plant] reads it: by field name. *)
Fixpoint dict_to_map (d : list (pystr * pyval)) : gmap string pyval :=
  match d with
  | [] => ∅
  | (k, v) :: r =>
      match string_of_pystr k with
      | Some name => <[name := v]> (dict_to_map r)
      | None => dict_to_map r
      end
  end.

(** [res[k] = v]: only a dictionary takes the assignment *)
Definition setitem (res : pyval) (k : string) (v : pyval) : M pyval :=
  match res with
  | PDict d => ret (PDict (dict_set (str k) v d))
  | _ => raise TypeError
  end.

(** [res[k]] *)
Definition getitem_obj (res : pyval) (k : string) : M pyval :=
  match res with
  | PDict d =>
      match dict_get (str k) d with
      | Some v => ret v
      | None => raise (KeyError k)
      end
  | _ => raise TypeError
  end.

(** [save_plant(res)] for an object: only a dictionary has the items
    [save_plant] asks for *)
Definition save_plant_obj (e : env) (res : pyval) : M unit :=
  match res with
  | PDict d => save_plant e (dict_to_map d)
  | _ => let* _ := sqlite3_connect e DB_NAME in raise TypeError
  end.

(** [not common_in and not scientific_in and not desc_in] *)
Definition form_empty (common_in scientific_in desc_in : pystr) : bool :=
  negb (truthy (PStr common_in)) && negb (truthy (PStr scientific_in))
  && negb (truthy (PStr desc_in)).

(** the body of [if st.form_submit_button(...)] *)
Definition research_lab_submit (e : env) (c : clock)
    (common_in scientific_in desc_in : pystr) (wish_in : bool)
  : M (list page_event) :=
  if form_empty common_in scientific_in desc_in
  then ret [PageError "Identification requires at least one data point."]
  else
    let* res := perform_research e common_in scientific_in desc_in in
    if truthy res then
      let* res := setitem res "id" (PStr (now_timestamp c)) in
      let* res := setitem res "date_added" (PDatetime (now c)) in
      let* res := setitem res "is_wishlist" (PBool wish_in) in
      let* _ := save_plant_obj e res in
      let* name := getitem_obj res "common_name" in
      ret [PageSuccess "Archived: " name; PageBalloons]
    else ret [].

(** the fragment a research answer carries for a record: the sixteen
    fields of the prompt *)
Definition fragment_of (r : plant) : list (pystr * pyval) :=
  [ (str "common_name", PStr (p_common_name r));
    (str "scientific_name", PStr (p_scientific_name r));
    (str "usda_zones", PList (map PInt (p_usda_zones r)));
    (str "min_temp", PFloat (p_min_temp r));
    (str "max_temp", PFloat (p_max_temp r));
    (str "drought_tolerance", PStr (p_drought_tolerance r));
    (str "watering_requirements", PStr (p_watering_requirements r));
    (str "watering_frequency", PStr (p_watering_frequency r));
    (str "sunlight", PStr (p_sunlight r));
    (str "soil_type", PStr (p_soil_type r));
    (str "fertilization_schedule", PStr (p_fertilization_schedule r));
    (str "herbal_benefits", PStr (p_herbal_benefits r));
    (str "herbal_properties", PStr (p_herbal_properties r));
    (str "herbal_dosage", PStr (p_herbal_dosage r));
    (str "herbal_notes", PStr (p_herbal_notes r));
    (str "notes", PStr (p_notes r)) ].

(** the record the page archives for a fragment *)
Definition archived (c : clock) (wish : bool) (r : plant) : plant :=
  {| p_id := now_timestamp c; p_common_name := p_common_name r;
     p_scientific_name := p_scientific_name r; p_usda_zones := p_usda_zones r;
     p_min_temp := p_min_temp r; p_max_temp := p_max_temp r;
     p_drought_tolerance := p_drought_tolerance r;
     p_watering_requirements := p_watering_requirements r;
     p_watering_frequency := p_watering_frequency r;
     p_sunlight := p_sunlight r; p_soil_type := p_soil_type r;
     p_fertilization_schedule := p_fertilization_schedule r;
     p_notes := p_notes r; p_herbal_benefits := p_herbal_benefits r;
     p_herbal_properties := p_herbal_properties r;
     p_herbal_dosage := p_herbal_dosage r; p_herbal_notes := p_herbal_notes r;
     p_is_wishlist := wish; p_date_added := now c;
     p_images := []; p_grounding_sources := [] |}.

(** the dictionary of a fragment once the page has set its three fields *)
Definition completed (c : clock) (wish : bool) (d : list (pystr * pyval))
  : list (pystr * pyval) :=
  dict_set (str "is_wishlist") (PBool wish)
    (dict_set (str "date_added") (PDatetime (now c))
       (dict_set (str "id") (PStr (now_timestamp c)) d)).

(** the world after one call to the remote model *)
Definition after_call (prompt : pystr) (w : world) : world :=
  {| db_table := db_table w; open_conns := open_conns w;
     st_log := st_log w; net_calls := net_calls w ++ [prompt] |}.

(** a key is configured *)
Definition has_key (e : env) : bool :=
  truthy (py_or (secrets_get e "API_KEY") (environ_get e "API_KEY")).

End Page.

(** ** Examples

    An instance of the interface of doubles for the examples: a double
    written as its decimal text. *)

#[export] Instance text_float : Float64 := {|
  float := pystr;
  float_is_nan := fun s => bool_decide (s = str "nan");
  float_json := fun s => s;
  float_of_str := fun s => s;
  float_of_int := fun z => str_of_Z z ++ str ".0";
  float_exact_int := fun _ => None;
  float_sql_text := fun s => s;
  float_of_sql_text := fun s => s;
  float_is_zero := fun s => bool_decide (s = str "0.0")
|}.

(** the record of the example scenario *)
Definition aloe : plant := {|
  p_id := str "1700000000.0";
  p_common_name := str "Aloe";
  p_scientific_name := str "Aloe vera";
  p_usda_zones := [9; 10; 11]%Z;
  p_min_temp := str "20.0";
  p_max_temp := str "110.0";
  p_drought_tolerance := str "high";
  p_watering_requirements := str "low";
  p_watering_frequency := str "every three weeks";
  p_sunlight := str "full sun";
  p_soil_type := str "sandy";
  p_fertilization_schedule := str "yearly";
  p_notes := [];
  p_herbal_benefits := str "soothes burns";
  p_herbal_properties := str "emollient";
  p_herbal_dosage := str "topical";
  p_herbal_notes := [];
  p_is_wishlist := false;
  p_date_added := {| dt_year := 2023; dt_month := 11; dt_day := 14;
                     dt_hour := 22; dt_minute := 13; dt_second := 20;
                     dt_microsecond := 0 |};
  p_images := [];
  p_grounding_sources := []
|}.

(** the same specimen, edited *)
Definition aloe_edited : plant := {|
  p_id := p_id aloe;
  p_common_name := str "Aloe (medicinal)";
  p_scientific_name := p_scientific_name aloe;
  p_usda_zones := [10; 11]%Z;
  p_min_temp := str "25.0";
  p_max_temp := p_max_temp aloe;
  p_drought_tolerance := p_drought_tolerance aloe;
  p_watering_requirements := p_watering_requirements aloe;
  p_watering_frequency := p_watering_frequency aloe;
  p_sunlight := p_sunlight aloe;
  p_soil_type := p_soil_type aloe;
  p_fertilization_schedule := p_fertilization_schedule aloe;
  p_notes := str "repotted";
  p_herbal_benefits := p_herbal_benefits aloe;
  p_herbal_properties := p_herbal_properties aloe;
  p_herbal_dosage := p_herbal_dosage aloe;
  p_herbal_notes := p_herbal_notes aloe;
  p_is_wishlist := true;
  p_date_added := p_date_added aloe;
  p_images := [str "aloe.png"];
  p_grounding_sources := []
|}.

(** no storage fault, no credential, a remote model that is unreachable *)
Definition quiet_env : env := {|
  connect_fault := None; execute_fault := None;
  commit_fault := None; query_fault := None;
  secrets := ∅; environ := ∅;
  remote := fun _ => inl (RemoteError "unreachable")
|}.

(** a locked database file: the statement fails *)
Definition locked_env : env := {|
  connect_fault := None;
  execute_fault := Some (OperationalError "database is locked");
  commit_fault := None; query_fault := None;
  secrets := ∅; environ := ∅;
  remote := fun _ => inl (RemoteError "unreachable")
|}.

(** a credential in the environment and a remote model that answers with
    the given text *)
Definition keyed_env (answer : exn + pystr) : env := {|
  connect_fault := None; execute_fault := None;
  commit_fault := None; query_fault := None;
  secrets := ∅; environ := {[ "API_KEY" := str "k-123" ]};
  remote := fun _ => answer
|}.

(** the answer of the remote model carrying the fragment of [aloe], and
    an answer that lacks fields *)
Definition aloe_answer : pystr :=
  Eval vm_compute in
    match json_encode (PDict (fragment_of aloe)) with
    | Some t => t
    | None => []
    end.

Definition partial_answer : pystr :=
  [123; 34] ++ str "scientific_name" ++ [34] ++ str ": "
    ++ [34] ++ str "Aloe vera" ++ [34; 125].

(** the clock at the time of the example scenario *)
Definition example_clock : clock :=
  {| now_timestamp := str "1700000000.0"; now := p_date_added aloe |}.

(** a new database file, and one whose table exists and is empty *)
Definition fresh_world : world :=
  {| db_table := None; open_conns := 0; st_log := []; net_calls := [] |}.

Definition empty_store : world :=
  {| db_table := Some []; open_conns := 0; st_log := []; net_calls := [] |}.

(** a store with one row whose [usda_zones] cell is not JSON *)
Definition damaged_row : row :=
  <[0%nat := SText (str "1700000001.0")]>
    (<[zones_col := SText (str "9, 10")]> (stored_row aloe)).

Definition damaged_store : world :=
  {| db_table := Some [stored_row aloe; damaged_row];
     open_conns := 0; st_log := []; net_calls := [] |}.

(** * Properties *)

Section Numerals.
Context `{Float64}.

(** quotient and remainder by ten as plain unknowns, for [lia] *)
Ltac name_div10 n :=
  let q := fresh "q" in
  let m := fresh "m" in
  pose proof (N.Div0.div_mod n 10);
  assert (n mod 10 < 10) by (apply N.mod_upper_bound; discriminate);
  set (q := n / 10) in *; set (m := n mod 10) in *; clearbody q m.

Lemma digits_value_eq ds : digits_value ds = fold_left digit_step ds 0.
Proof. reflexivity. Qed.

Lemma dec_digits_value fuel : forall n acc,
  n < 2 ^ N.of_nat fuel ->
  fold_left digit_step (dec_digits fuel n acc) 0 = fold_left digit_step acc n.
Proof.
  induction fuel as [|f IH]; intros n acc Hn.
  - simpl in Hn. assert (n = 0) by lia. subst. reflexivity.
  - cbn [dec_digits]. destruct (N.eqb_spec (n / 10) 0) as [Hz|Hz].
    + cbn [fold_left]. unfold digit_step at 2, chr_0.
      f_equal. name_div10 n. lia.
    + rewrite IH.
      * cbn [fold_left]. f_equal. unfold digit_step, chr_0.
        name_div10 n. lia.
      * rewrite Nat2N.inj_succ, N.pow_succ_r' in Hn.
        assert (n / 10 <= n / 2).
        { apply N.div_le_compat_l; lia. }
        assert (n / 2 < 2 ^ N.of_nat f).
        { apply N.Div0.div_lt_upper_bound; lia. }
        lia.
Qed.

Lemma log2_fuel n : n < 2 ^ N.of_nat (S (N.to_nat (N.log2 n))).
Proof.
  rewrite Nat2N.inj_succ, N2Nat.id.
  destruct (N.eq_dec n 0) as [->|Hn]; [reflexivity|].
  apply N.log2_spec. lia.
Qed.

Lemma str_of_N_value n : digits_value (str_of_N n) = n.
Proof.
  unfold str_of_N. rewrite digits_value_eq, dec_digits_value by apply log2_fuel.
  reflexivity.
Qed.

Lemma is_digit_chr n : is_digit (chr_0 + n mod 10) = true.
Proof.
  unfold is_digit, chr_0. name_div10 n.
  apply andb_true_iff; split; apply N.leb_le; lia.
Qed.

Lemma dec_digits_digits fuel : forall n acc,
  forallb is_digit acc = true -> forallb is_digit (dec_digits fuel n acc) = true.
Proof.
  induction fuel as [|f IH]; intros n acc Hacc; [exact Hacc|].
  cbn [dec_digits].
  assert (forallb is_digit ((chr_0 + n mod 10) :: acc) = true) as Hc.
  { cbn [forallb]. rewrite is_digit_chr. exact Hacc. }
  destruct (n / 10 =? 0); [exact Hc|]. apply IH, Hc.
Qed.

Lemma str_of_N_digits n : forallb is_digit (str_of_N n) = true.
Proof. apply dec_digits_digits. reflexivity. Qed.

(** The numeral of a positive number starts with a digit other than 0. *)
Lemma dec_digits_head fuel : forall n acc,
  n <> 0 -> n < 2 ^ N.of_nat fuel ->
  exists d r, dec_digits fuel n acc = d :: r /\ is_digit d = true /\ d <> chr_0.
Proof.
  induction fuel as [|f IH]; intros n acc Hn Hlt.
  - simpl in Hlt. lia.
  - cbn [dec_digits]. destruct (N.eqb_spec (n / 10) 0) as [Hz|Hz].
    + exists (chr_0 + n mod 10), acc. split; [reflexivity|].
      split; [apply is_digit_chr|].
      unfold chr_0. name_div10 n. lia.
    + apply IH; [exact Hz|].
      rewrite Nat2N.inj_succ, N.pow_succ_r' in Hlt.
      assert (n / 10 <= n / 2) by (apply N.div_le_compat_l; lia).
      assert (n / 2 < 2 ^ N.of_nat f) by (apply N.Div0.div_lt_upper_bound; lia).
      lia.
Qed.

Lemma str_of_N_head n :
  n <> 0 -> exists d r, str_of_N n = d :: r /\ is_digit d = true /\ d <> chr_0.
Proof. intros Hn. apply dec_digits_head; [exact Hn|apply log2_fuel]. Qed.

Lemma str_of_N_nonempty n : str_of_N n <> [].
Proof.
  destruct (N.eq_dec n 0) as [->|Hn]; [discriminate|].
  destruct (str_of_N_head n Hn) as (d & r & -> & _). discriminate.
Qed.

Lemma span_digits_app ds rest :
  forallb is_digit ds = true -> no_digit_next rest = true ->
  span_digits (ds ++ rest) = (ds, rest).
Proof.
  intros Hds Hrest. induction ds as [|d ds IH]; cbn [app].
  - destruct rest as [|c r]; [reflexivity|].
    cbn [span_digits]. cbn in Hrest. apply negb_true_iff in Hrest.
    rewrite Hrest. reflexivity.
  - cbn [forallb] in Hds. apply andb_true_iff in Hds as [Hd Hds].
    cbn [span_digits]. rewrite Hd, (IH Hds). reflexivity.
Qed.

End Numerals.

Section JsonIntegers.
Context `{Float64}.

Lemma number_end_no_digit rest : number_end rest = true -> no_digit_next rest = true.
Proof.
  destruct rest as [|c r]; [reflexivity|]. cbn. intros Hc.
  apply negb_true_iff in Hc. apply negb_true_iff.
  destruct (is_digit c); [discriminate|reflexivity].
Qed.

Lemma is_digit_not_minus d : is_digit d = true -> (d =? 45) = false.
Proof.
  unfold is_digit. intros Hd. apply andb_true_iff in Hd as [H1 _].
  apply N.leb_le in H1. apply N.eqb_neq. lia.
Qed.

(** The scanner reads back a run of digits that is a canonical integer
    literal. *)
Lemma scan_number_digits (neg : bool) d ds rest :
  is_digit d = true -> forallb is_digit ds = true ->
  (d = chr_0 -> ds = []) ->
  number_end rest = true ->
  scan_number ((if neg then [45] else []) ++ (d :: ds) ++ rest)
  = Some (PInt (int_of_literal neg (d :: ds)), rest).
Proof.
  intros Hd Hds Hzero Hend.
  assert (span_digits ((d :: ds) ++ rest) = (d :: ds, rest)) as Hspan.
  { apply span_digits_app; [|apply number_end_no_digit, Hend].
    cbn [forallb]. rewrite Hd. exact Hds. }
  assert ((if d =? 48 then ([d], ds ++ rest) else span_digits ((d :: ds) ++ rest))
          = (d :: ds, rest)) as Hint.
  { destruct (N.eqb_spec d 48) as [Heq|Hne]; [|exact Hspan].
    rewrite (Hzero Heq). reflexivity. }
  unfold scan_number.
  destruct neg; cbn [app].
  - rewrite N.eqb_refl. rewrite Hd. cbn [app] in Hint. rewrite Hint.
    destruct rest as [|c r]; [reflexivity|].
    cbn in Hend. apply negb_true_iff in Hend.
    apply orb_false_iff in Hend as [Hend He2].
    apply orb_false_iff in Hend as [Hend He1].
    apply orb_false_iff in Hend as [_ Hpt].
    rewrite Hpt, He1, He2. reflexivity.
  - rewrite (is_digit_not_minus d Hd). rewrite Hd. cbn [app] in Hint. rewrite Hint.
    destruct rest as [|c r]; [reflexivity|].
    cbn in Hend. apply negb_true_iff in Hend.
    apply orb_false_iff in Hend as [Hend He2].
    apply orb_false_iff in Hend as [Hend He1].
    apply orb_false_iff in Hend as [_ Hpt].
    rewrite Hpt, He1, He2. reflexivity.
Qed.

Lemma str_of_N_canonical n :
  exists d ds, str_of_N n = d :: ds /\ is_digit d = true
               /\ forallb is_digit ds = true /\ (d = chr_0 -> ds = []).
Proof.
  destruct (N.eq_dec n 0) as [->|Hn].
  - exists chr_0, []. repeat split; reflexivity.
  - destruct (str_of_N_head n Hn) as (d & ds & Heq & Hd & Hne).
    exists d, ds. pose proof (str_of_N_digits n) as Hall.
    rewrite Heq in Hall. cbn [forallb] in Hall.
    apply andb_true_iff in Hall as [_ Hall].
    repeat split; try assumption. intros ->. contradiction.
Qed.

Lemma scan_number_int z rest :
  number_end rest = true ->
  scan_number (str_of_Z z ++ rest) = Some (PInt z, rest).
Proof.
  intros Hend. destruct z as [|p|p].
  - apply (scan_number_digits false chr_0 [] rest); auto.
  - unfold str_of_Z. change (Z.to_N (Z.pos p)) with (N.pos p).
    destruct (str_of_N_canonical (N.pos p)) as (d & ds & Heq & Hd & Hds & Hz).
    rewrite Heq.
    pose proof (scan_number_digits false d ds rest Hd Hds Hz Hend) as Hs.
    cbn [app] in Hs |- *. rewrite Hs.
    unfold int_of_literal. rewrite <- Heq, str_of_N_value. reflexivity.
  - unfold str_of_Z.
    destruct (str_of_N_canonical (N.pos p)) as (d & ds & Heq & Hd & Hds & Hz).
    rewrite Heq.
    pose proof (scan_number_digits true d ds rest Hd Hds Hz Hend) as Hs.
    cbn [app] in Hs |- *. rewrite Hs.
    unfold int_of_literal. rewrite <- Heq, str_of_N_value. reflexivity.
Qed.

End JsonIntegers.

Section JsonIntLists.
Context `{Float64}.

Lemma str_of_Z_head z :
  exists c cs, str_of_Z z = c :: cs /\ 45 <= c <= 57.
Proof.
  assert (forall n, exists c cs, str_of_N n = c :: cs /\ 45 <= c <= 57) as HN.
  { intros n. destruct (str_of_N_canonical n) as (d & ds & Heq & Hd & _).
    exists d, ds. split; [exact Heq|].
    unfold is_digit in Hd. apply andb_true_iff in Hd as [H1 H2].
    apply N.leb_le in H1, H2. lia. }
  destruct z as [|p|p]; unfold str_of_Z.
  - apply HN.
  - apply HN.
  - exists 45, (str_of_N (N.pos p)). split; [reflexivity|lia].
Qed.

Lemma strip_prefix_head_ne a p c s :
  a <> c -> strip_prefix (a :: p) (c :: s) = None.
Proof.
  intros Hne. cbn [strip_prefix].
  destruct (N.eqb_spec a c); [contradiction|reflexivity].
Qed.

Lemma scan_once_int fuel z rest :
  number_end rest = true ->
  scan_once (S fuel) (str_of_Z z ++ rest) = Some (PInt z, rest).
Proof.
  intros Hend. pose proof (scan_number_int z rest Hend) as Hnum.
  destruct (str_of_Z_head z) as (c & cs & Heq & Hc).
  rewrite Heq in *. cbn [app] in *. cbn [scan_once].
  assert ((c =? 34) = false) as -> by (apply N.eqb_neq; lia).
  assert ((c =? 123) = false) as -> by (apply N.eqb_neq; lia).
  assert ((c =? 91) = false) as -> by (apply N.eqb_neq; lia).
  change (str "null") with (110 :: str "ull").
  change (str "true") with (116 :: str "rue").
  change (str "false") with (102 :: str "alse").
  rewrite !strip_prefix_head_ne by lia.
  rewrite Hnum. reflexivity.
Qed.

Lemma skip_ws_head c s : is_ws c = false -> skip_ws (c :: s) = c :: s.
Proof. intros Hc. cbn [skip_ws]. rewrite Hc. reflexivity. Qed.

Lemma numeral_not_ws c : 45 <= c <= 57 -> is_ws c = false.
Proof.
  intros Hc. unfold is_ws.
  repeat (apply orb_false_iff; split); apply N.eqb_neq; lia.
Qed.

Lemma int_items_cons z z' l :
  int_items (z :: z' :: l) = str_of_Z z ++ 44 :: 32 :: int_items (z' :: l).
Proof. reflexivity. Qed.

Lemma int_items_head z l :
  exists c cs, int_items (z :: l) = c :: cs /\ 45 <= c <= 57.
Proof.
  destruct (str_of_Z_head z) as (c & cs & Heq & Hc).
  destruct l as [|z' l].
  - exists c, cs. split; [exact Heq|exact Hc].
  - rewrite int_items_cons, Heq. eexists c, _. split; [reflexivity|exact Hc].
Qed.

Lemma array_items_ints l : forall z acc fuel rest,
  (length l + 2 <= fuel)%nat ->
  array_items fuel (int_items (z :: l) ++ 93 :: rest) acc
  = Some (PList (rev acc ++ map PInt (z :: l)), rest).
Proof.
  induction l as [|z' l IH]; intros z acc fuel rest Hfuel.
  - destruct fuel as [|f0]; [cbn in Hfuel; lia|].
    change (int_items [z]) with (str_of_Z z).
    cbn [array_items]. destruct f0 as [|f]; [cbn in Hfuel; lia|].
    rewrite scan_once_int by reflexivity.
    reflexivity.
  - destruct fuel as [|f0]; [cbn in Hfuel; lia|].
    rewrite int_items_cons. rewrite <- app_assoc.
    cbn [array_items]. destruct f0 as [|f]; [cbn in Hfuel; lia|].
    rewrite scan_once_int by reflexivity.
    cbn [app].
    change (skip_ws (44 :: 32 :: int_items (z' :: l) ++ 93 :: rest))
      with (44 :: 32 :: int_items (z' :: l) ++ 93 :: rest).
    cbv iota beta.
    change (44 =? 93) with false. change (44 =? 44) with true. cbv iota.
    change (skip_ws (32 :: int_items (z' :: l) ++ 93 :: rest))
      with (skip_ws (int_items (z' :: l) ++ 93 :: rest)).
    destruct (int_items_head z' l) as (c & cs & Heq & Hc).
    assert (skip_ws (int_items (z' :: l) ++ 93 :: rest)
            = int_items (z' :: l) ++ 93 :: rest) as ->.
    { rewrite Heq. cbn [app]. apply skip_ws_head, numeral_not_ws, Hc. }
    rewrite IH by (cbn [length] in Hfuel; lia).
    f_equal. f_equal. f_equal. cbn [rev map]. rewrite <- app_assoc. reflexivity.
Qed.

Lemma encode_int_list l :
  json_encode (PList (map PInt l)) = Some (91 :: int_items l ++ [93]).
Proof.
  assert (all_some json_encode (map PInt l) = Some (map str_of_Z l)) as Hall.
  { induction l as [|z l IH]; [reflexivity|].
    cbn [map all_some]. cbn [map all_some] in IH. rewrite IH. reflexivity. }
  cbn [json_encode]. rewrite Hall. reflexivity.
Qed.

Lemma int_items_length l : (length l <= length (int_items l))%nat.
Proof.
  induction l as [|z l IH]; [cbn; lia|].
  destruct l as [|z' l].
  - change (int_items [z]) with (str_of_Z z).
    destruct (str_of_Z_head z) as (c & cs & -> & _). cbn. lia.
  - rewrite int_items_cons.
    destruct (str_of_Z_head z) as (c & cs & -> & _).
    cbn [length app] in *. rewrite length_app. cbn [length]. lia.
Qed.

(** [json.loads(json.dumps(l)) == l] for every list of integers. *)
Lemma loads_dumps_int_list (l : list Z) :
  exists t, json_dumps (PList (map PInt l)) = inr t
            /\ json_loads t = inr (PList (map PInt l)).
Proof.
  exists (91 :: int_items l ++ [93]). unfold json_dumps.
  rewrite encode_int_list. split; [reflexivity|].
  unfold json_loads.
  change (starts_with_bom (91 :: int_items l ++ [93])) with false. cbv iota.
  change (skip_ws (91 :: int_items l ++ [93])) with (91 :: int_items l ++ [93]).
  assert (exists f, Nat.add (Nat.mul 2 (length (91 :: int_items l ++ [93]))) 2 = S f
                    /\ (length l + 2 <= f)%nat) as (f & -> & Hf).
  { eexists. split; [rewrite Nat.add_succ_r; reflexivity|].
    pose proof (int_items_length l) as Hlen.
    cbn [length]. rewrite length_app. cbn [length]. lia. }
  cbn [scan_once]. change (91 =? 34) with false. change (91 =? 123) with false.
  change (91 =? 91) with true. cbv iota.
  destruct l as [|z l].
  - reflexivity.
  - destruct (int_items_head z l) as (c & cs & Heq & Hc).
    assert (skip_ws (int_items (z :: l) ++ [93]) = c :: cs ++ [93]) as ->.
    { rewrite Heq. cbn [app]. apply skip_ws_head, numeral_not_ws, Hc. }
    assert ((c =? 93) = false) as -> by (apply N.eqb_neq; lia).
    change (c :: cs ++ [93]) with ((c :: cs) ++ [93]). rewrite <- Heq.
    rewrite array_items_ints by (cbn [length] in Hf; lia).
    reflexivity.
Qed.

End JsonIntLists.

Section AsciiText.
Context `{Float64}.

Lemma is_ascii_cons c s : is_ascii (c :: s) = (c <? 128) && is_ascii s.
Proof. reflexivity. Qed.

Lemma is_ascii_app s t : is_ascii (s ++ t) = is_ascii s && is_ascii t.
Proof. apply forallb_app. Qed.

Lemma is_ascii_encodable s : is_ascii s = true -> existsb is_surrogate s = false.
Proof.
  induction s as [|c s IH]; [reflexivity|].
  rewrite is_ascii_cons. cbn [existsb]. intros Hs.
  apply andb_true_iff in Hs as [Hc Hs]. rewrite (IH Hs), orb_false_r.
  apply N.ltb_lt in Hc. unfold is_surrogate.
  apply andb_false_iff. left. apply N.leb_gt. lia.
Qed.

Lemma is_digit_ascii s : forallb is_digit s = true -> is_ascii s = true.
Proof.
  induction s as [|c s IH]; [reflexivity|].
  rewrite is_ascii_cons. cbn [forallb]. intros Hs. apply andb_true_iff in Hs as [Hc Hs].
  rewrite (IH Hs), andb_true_r. unfold is_digit in Hc.
  apply andb_true_iff in Hc as [_ Hc]. apply N.leb_le in Hc. apply N.ltb_lt. lia.
Qed.

Lemma str_of_Z_ascii z : is_ascii (str_of_Z z) = true.
Proof.
  destruct z; unfold str_of_Z; try apply is_digit_ascii, str_of_N_digits.
  rewrite is_ascii_cons. apply is_digit_ascii, str_of_N_digits.
Qed.

Lemma join_cons sep (x y : pystr) items :
  join sep (x :: y :: items) = x ++ sep ++ join sep (y :: items).
Proof. reflexivity. Qed.

Lemma join_ascii sep items :
  is_ascii sep = true -> forallb is_ascii items = true ->
  is_ascii (join sep items) = true.
Proof.
  intros Hsep. induction items as [|x items IH]; [reflexivity|].
  cbn [forallb]. intros Hx. apply andb_true_iff in Hx as [Hx Hitems].
  destruct items as [|y items]; [exact Hx|].
  rewrite join_cons, !is_ascii_app, Hx, Hsep, (IH Hitems). reflexivity.
Qed.

Lemma hex_digit_ascii d : d < 16 -> (hex_digit d <? 128) = true.
Proof. intros Hd. unfold hex_digit, chr_0. apply N.ltb_lt. destruct (d <? 10); lia. Qed.

Lemma backslash_u_ascii n : is_ascii (backslash_u n) = true.
Proof.
  unfold backslash_u, hex4. rewrite !is_ascii_cons.
  rewrite !hex_digit_ascii by (apply N.mod_upper_bound; discriminate).
  reflexivity.
Qed.

Lemma escape_char_ascii c : is_ascii (escape_char c) = true.
Proof.
  unfold escape_char.
  repeat match goal with
         | |- context [if ?b =? ?k then _ else _] => destruct (b =? k); [reflexivity|]
         end.
  destruct (andb (32 <=? c) (c <=? 126)) eqn:Hc.
  - apply andb_true_iff in Hc as [_ Hc]. apply N.leb_le in Hc.
    rewrite is_ascii_cons. cbn. rewrite andb_true_r. apply N.ltb_lt. lia.
  - destruct (c <? 65536); [apply backslash_u_ascii|].
    rewrite is_ascii_app, !backslash_u_ascii. reflexivity.
Qed.

Lemma encode_basestring_ascii_ascii s : is_ascii (encode_basestring_ascii s) = true.
Proof.
  unfold encode_basestring_ascii.
  rewrite is_ascii_cons, is_ascii_app. cbn. rewrite andb_true_r.
  induction s as [|c s IH]; [reflexivity|].
  cbn [map concat]. rewrite is_ascii_app, escape_char_ascii. exact IH.
Qed.

Lemma int_items_ascii l : is_ascii (91 :: int_items l ++ [93]) = true.
Proof.
  rewrite is_ascii_cons, is_ascii_app. cbn. rewrite andb_true_r.
  apply join_ascii; [reflexivity|].
  induction l as [|z l IH]; [reflexivity|].
  cbn [map forallb]. rewrite str_of_Z_ascii. exact IH.
Qed.

Lemma str_items_ascii l : is_ascii (str_items l) = true.
Proof.
  unfold str_items.
  rewrite is_ascii_cons, is_ascii_app. cbn. rewrite andb_true_r.
  apply join_ascii; [reflexivity|].
  induction l as [|z l IH]; [reflexivity|].
  cbn [map forallb]. rewrite encode_basestring_ascii_ascii. exact IH.
Qed.

Lemma encode_str_list l :
  json_encode (PList (map PStr l)) = Some (str_items l).
Proof.
  assert (all_some json_encode (map PStr l) = Some (map encode_basestring_ascii l)) as Hall.
  { induction l as [|z l IH]; [reflexivity|].
    cbn [map all_some]. cbn [map all_some] in IH. rewrite IH. reflexivity. }
  cbn [json_encode]. rewrite Hall. reflexivity.
Qed.

End AsciiText.

Section Timestamps.
Context `{Float64}.

Lemma pad_dec_digits w n : forallb is_digit (pad_dec w n) = true.
Proof.
  unfold pad_dec. rewrite forallb_app, str_of_N_digits, andb_true_r.
  induction (w - length (str_of_N n))%nat as [|k IH]; [reflexivity|exact IH].
Qed.

Lemma pad_dec_nonempty w n : pad_dec w n <> [].
Proof.
  unfold pad_dec. intros Heq. apply app_eq_nil in Heq as [_ Heq].
  exact (str_of_N_nonempty n Heq).
Qed.

(** The text of a timestamp is never taken for a number: the column
    keeps it as text. *)
Lemma digit_not_space c : is_digit c = true -> is_sql_space c = false.
Proof.
  unfold is_digit, is_sql_space. intros Hc.
  apply andb_true_iff in Hc as [H1 H2]. apply N.leb_le in H1, H2.
  apply orb_false_iff; split.
  - apply N.eqb_neq; lia.
  - apply andb_false_iff. right. apply N.leb_gt. lia.
Qed.

Lemma digit_not_sign c : is_digit c = true -> (c =? 45) || (c =? 43) = false.
Proof.
  unfold is_digit. intros Hc.
  apply andb_true_iff in Hc as [H1 H2]. apply N.leb_le in H1, H2.
  apply orb_false_iff; split; apply N.eqb_neq; lia.
Qed.

Lemma isoformat_not_numeric d : sql_numeric_class (isoformat d) = None.
Proof.
  unfold isoformat.
  pose proof (pad_dec_digits 4 (dt_year d)) as Hds.
  pose proof (pad_dec_nonempty 4 (dt_year d)) as Hne.
  set (tail := [45] ++ _).
  destruct (pad_dec 4 (dt_year d)) as [|c cs] eqn:Hy; [contradiction|].
  assert (span_digits ((c :: cs) ++ tail) = (c :: cs, tail)) as Hspan.
  { apply span_digits_app; [exact Hds|reflexivity]. }
  cbn [forallb] in Hds. apply andb_true_iff in Hds as [Hc _].
  unfold sql_numeric_class. cbn [app skip_sql_space].
  rewrite (digit_not_space c Hc), (digit_not_sign c Hc).
  cbn [app] in Hspan. rewrite Hspan.
  reflexivity.
Qed.

End Timestamps.

(** the lookups of a dictionary given in full, evaluated *)
Ltac eval_lookups :=
  repeat match goal with
         | |- context [@lookup _ _ _ _ ?k ?m] =>
             let v := eval vm_compute in (m !! k) in
             change (m !! k) with v; cbv iota beta
         end.

Section SavePlant.
Context `{Float64}.

Lemma dumps_int_list l w :
  dumps (PList (map PInt l)) w = (inr (PStr (91 :: int_items l ++ [93])), w).
Proof. unfold dumps, bind, json_dumps. rewrite encode_int_list. reflexivity. Qed.

Lemma dumps_str_list l w :
  dumps (PList (map PStr l)) w = (inr (PStr (str_items l)), w).
Proof. unfold dumps, bind, json_dumps. rewrite encode_str_list. reflexivity. Qed.

Lemma insert_params_plant r w :
  insert_params (to_dict r) w = (inr (params_of r), w).
Proof.
  destruct r. unfold insert_params, params_of, to_dict, values_of, get_default.
  cbn [p_id p_common_name p_scientific_name p_usda_zones p_min_temp p_max_temp
       p_drought_tolerance p_watering_requirements p_watering_frequency
       p_sunlight p_soil_type p_fertilization_schedule p_notes
       p_herbal_benefits p_herbal_properties p_herbal_dosage p_herbal_notes
       p_is_wishlist p_date_added p_images p_grounding_sources].
  remember (PList (map PInt p_usda_zones0)) as zs eqn:Hzs.
  remember (PList (map PStr p_images0)) as im eqn:Him.
  remember (PList (map PStr p_grounding_sources0)) as gs eqn:Hgs.
  unfold getitem. eval_lookups.
  unfold bind at 1 2 3 4. cbn [ret]. subst zs.
  unfold bind at 1. rewrite dumps_int_list.
  do 15 (unfold bind at 1; cbn [ret]).
  subst im gs.
  unfold bind at 1. rewrite dumps_str_list.
  unfold bind at 1. rewrite dumps_str_list.
  reflexivity.
Qed.

Lemma encodable_false s : encodable s = true -> existsb is_surrogate s = false.
Proof. unfold encodable. intros Hs. apply negb_true_iff in Hs. exact Hs. Qed.

Ltac split_andb :=
  repeat match goal with
         | Hc : _ && _ = true |- _ =>
             let H1 := fresh "Hc" in
             let H2 := fresh "Hc" in
             apply andb_true_iff in Hc as [H1 H2]
         end.

Lemma adapt_params r :
  storable r = true -> adapt_all (params_of r) = inr (stored_row r).
Proof.
  destruct r. unfold storable, params_of, stored_row.
  cbn [p_id p_common_name p_scientific_name p_usda_zones p_min_temp p_max_temp
       p_drought_tolerance p_watering_requirements p_watering_frequency
       p_sunlight p_soil_type p_fertilization_schedule p_notes
       p_herbal_benefits p_herbal_properties p_herbal_dosage p_herbal_notes
       p_is_wishlist p_date_added p_images p_grounding_sources forallb].
  intros Hc. split_andb.
  repeat match goal with
         | Hc : encodable _ = true |- _ => apply encodable_false in Hc
         | Hc : negb _ = true |- _ => apply negb_true_iff in Hc
         end.
  cbn [adapt_all adapt].
  rewrite (is_ascii_encodable _ (int_items_ascii p_usda_zones0)).
  rewrite !(is_ascii_encodable _ (str_items_ascii _)).
  repeat match goal with
         | Hc : _ = false |- _ => rewrite Hc; clear Hc
         end.
  destruct p_is_wishlist0; reflexivity.
Qed.

Lemma store_row_plant r :
  store_row plants_columns (stored_row r) = stored_row r.
Proof.
  unfold stored_row, plants_columns, text_col.
  cbn [store_row apply_affinity col_affinity].
  unfold text_to_numeric. rewrite isoformat_not_numeric. reflexivity.
Qed.

Lemma bind_ok {A B} (m : M A) (k : A -> M B) w a w' :
  m w = (inr a, w') -> bind m k w = k a w'.
Proof. intros Hm. unfold bind. rewrite Hm. reflexivity. Qed.

Lemma bind_raise {A B} (m : M A) (k : A -> M B) w ex w' :
  m w = (inl ex, w') -> bind m k w = (inl ex, w').
Proof. intros Hm. unfold bind. rewrite Hm. reflexivity. Qed.

Lemma connect_ok e name w :
  connect_fault e = None ->
  sqlite3_connect e name w = (inr {| txn := None |}, with_open (S (open_conns w)) w).
Proof. intros Hf. unfold sqlite3_connect. rewrite Hf. reflexivity. Qed.

Lemma connect_fails e name w err :
  connect_fault e = Some err ->
  sqlite3_connect e name w = (inl (SqliteError err), w).
Proof. intros Hf. unfold sqlite3_connect. rewrite Hf. reflexivity. Qed.

Lemma insert_ok e r w rows :
  execute_fault e = None -> storable r = true -> db_table w = Some rows ->
  execute_insert_or_replace e {| txn := None |} (params_of r) w
  = (inr {| txn := Some (Some (insert_or_replace plants_columns (stored_row r) rows)) |}, w).
Proof.
  intros Hf Hr Ht. unfold execute_insert_or_replace, conn_view. cbn [txn].
  rewrite (bind_ok _ _ w (db_table w) w) by reflexivity. rewrite Ht.
  change (negb (length (params_of r) =? length plants_columns)%nat) with false.
  cbv iota. rewrite (bind_ok _ _ w (stored_row r) w)
    by (rewrite (adapt_params r Hr); reflexivity).
  rewrite Hf. rewrite store_row_plant. reflexivity.
Qed.

Lemma commit_ok e t w :
  commit_fault e = None ->
  conn_commit e {| txn := Some t |} w = (inr {| txn := None |}, with_table t w).
Proof. intros Hf. unfold conn_commit. cbn [txn]. rewrite Hf. reflexivity. Qed.

Lemma close_ok conn w :
  conn_close conn w = (inr tt, with_open (pred (open_conns w)) w).
Proof. reflexivity. Qed.

Lemma healthy_faults e :
  healthy e = true ->
  connect_fault e = None /\ execute_fault e = None
  /\ commit_fault e = None /\ query_fault e = None.
Proof.
  unfold healthy.
  destruct (connect_fault e), (execute_fault e), (commit_fault e), (query_fault e);
    intros; try discriminate; auto.
Qed.

(** What [save_plant] does with a record of the data model when the
    table exists and the storage layer does not fail. *)
Lemma save_plant_stored e r w rows :
  healthy e = true -> storable r = true -> db_table w = Some rows ->
  save_plant e (to_dict r) w
  = (inr tt,
     with_table (Some (insert_or_replace plants_columns (stored_row r) rows)) w).
Proof.
  intros He Hr Ht. destruct (healthy_faults e He) as (Hc & Hx & Hm & _).
  unfold save_plant.
  rewrite (bind_ok _ _ _ _ _ (connect_ok e DB_NAME w Hc)).
  rewrite (bind_ok _ _ _ _ _ (insert_params_plant r _)).
  rewrite (bind_ok _ _ _ _ _
             (insert_ok e r (with_open (S (open_conns w)) w) rows Hx Hr Ht)).
  rewrite (bind_ok _ _ _ _ _ (commit_ok e _ _ Hm)).
  rewrite close_ok. destruct w. reflexivity.
Qed.

End SavePlant.

Section ReadAll.
Context `{Float64}.

Lemma try_except_ok {A} (m : M A) h w a w' :
  m w = (inr a, w') -> try_except m h w = (inr a, w').
Proof. intros Hm. unfold try_except. rewrite Hm. reflexivity. Qed.

Lemma try_except_raise {A} (m : M A) h w ex w' :
  m w = (inl ex, w') -> try_except m h w = h ex w'.
Proof. intros Hm. unfold try_except. rewrite Hm. reflexivity. Qed.

Lemma with_open_restore w : with_open (pred (S (open_conns w))) (with_open (S (open_conns w)) w) = w.
Proof. destruct w. reflexivity. Qed.

Lemma read_ok e conn w rows :
  query_fault e = None -> txn conn = None -> db_table w = Some rows ->
  read_sql_query e conn w
  = (inr {| df_columns := map col_name plants_columns;
            df_rows := map (map fetch) rows |}, w).
Proof.
  intros Hq Hc Ht. unfold read_sql_query, conn_view. rewrite Hq, Hc.
  cbn [fault]. rewrite (bind_ok _ _ w tt w) by reflexivity.
  rewrite (bind_ok _ _ w (db_table w) w) by reflexivity.
  rewrite Ht. reflexivity.
Qed.

Lemma apply_usda_zones rows :
  apply_column {| df_columns := map col_name plants_columns; df_rows := rows |}
               "usda_zones" loads_if_str
  = match apply_rows loads_if_str zones_col rows with
    | inl ex => inl ex
    | inr rows' => inr {| df_columns := map col_name plants_columns; df_rows := rows' |}
    end.
Proof. reflexivity. Qed.

(** The outcome of [get_all_plants] when the storage layer answers: the
    decoded rows, or an empty table and a notification. *)
Lemma get_all_plants_read e w rows :
  connect_fault e = None -> query_fault e = None -> db_table w = Some rows ->
  get_all_plants e w
  = match apply_rows loads_if_str zones_col (map (map fetch) rows) with
    | inr rows' =>
        (inr {| df_columns := map col_name plants_columns; df_rows := rows' |}, w)
    | inl ex => (inr empty_frame, with_note (StError "Vault Read Error: " ex) w)
    end.
Proof.
  intros Hc Hq Ht. unfold get_all_plants.
  set (body := bind _ _).
  assert (body w
          = match apply_rows loads_if_str zones_col (map (map fetch) rows) with
            | inr rows' =>
                (inr {| df_columns := map col_name plants_columns;
                        df_rows := rows' |}, w)
            | inl ex => (inl ex, w)
            end) as Hbody.
  { subst body.
    rewrite (bind_ok _ _ _ _ _ (connect_ok e DB_NAME w Hc)).
    rewrite (bind_ok _ _ _ _ _
               (read_ok e {| txn := None |} (with_open (S (open_conns w)) w)
                  rows Hq eq_refl Ht)).
    rewrite (bind_ok _ _ _ _ _ (close_ok _ _)).
    cbn [open_conns with_open]. 
    change (with_open (pred (S (open_conns w))) _) with
      (with_open (pred (S (open_conns w))) (with_open (S (open_conns w)) w)).
    rewrite with_open_restore. rewrite apply_usda_zones.
    destruct (apply_rows _ _ _); reflexivity. }
  destruct (apply_rows loads_if_str zones_col (map (map fetch) rows)) as [ex|rows'].
  - rewrite (try_except_raise _ _ _ _ _ Hbody). reflexivity.
  - rewrite (try_except_ok _ _ _ _ _ Hbody). reflexivity.
Qed.

End ReadAll.

Section Rows.
Context `{Float64}.

Lemma apply_rows_app f i (a b : list (list pyval)) :
  apply_rows f i (a ++ b)
  = match apply_rows f i a with
    | inl ex => inl ex
    | inr a' =>
        match apply_rows f i b with
        | inl ex => inl ex
        | inr b' => inr (a' ++ b')
        end
    end.
Proof.
  induction a as [|r a IH]; cbn [app apply_rows].
  - destruct (apply_rows f i b); reflexivity.
  - rewrite IH. destruct (r !! i) as [x|].
    + destruct (f x); [reflexivity|].
      destruct (apply_rows f i a); [reflexivity|].
      destruct (apply_rows f i b); reflexivity.
    + destruct (apply_rows f i a); [reflexivity|].
      destruct (apply_rows f i b); reflexivity.
Qed.

Lemma apply_rows_fetched rows : forall rows',
  apply_rows loads_if_str zones_col (map (map fetch) rows) = inr rows' ->
  Forall2 fetched_but_zones rows rows'.
Proof.
  induction rows as [|srow rows IH]; intros rows' Hrows; cbn [map apply_rows] in Hrows.
  - injection Hrows as <-. constructor.
  - destruct (map fetch srow !! zones_col) as [x|] eqn:Hx.
    + destruct (loads_if_str x) as [ex|y]; [discriminate|].
      destruct (apply_rows loads_if_str zones_col (map (map fetch) rows))
        as [ex|rest]; [discriminate|].
      injection Hrows as <-. constructor; [|apply IH; reflexivity].
      intros j Hj. rewrite list_lookup_insert_ne by congruence.
      apply list_lookup_fmap.
    + destruct (apply_rows loads_if_str zones_col (map (map fetch) rows))
        as [ex|rest]; [discriminate|].
      injection Hrows as <-. constructor; [|apply IH; reflexivity].
      intros j Hj. apply list_lookup_fmap.
Qed.

Lemma loads_fetch_readable srow x :
  row_readable srow = true -> map fetch srow !! zones_col = Some x ->
  exists y, loads_if_str x = inr y.
Proof.
  unfold row_readable. rewrite list_lookup_fmap.
  destruct (srow !! zones_col) as [v|]; [|discriminate].
  cbn. intros Hr Hx. injection Hx as <-.
  destruct v; cbn [fetch loads_if_str]; try (eexists; reflexivity).
  destruct (json_loads s) as [ex|y]; [discriminate|]. exists y. reflexivity.
Qed.

Lemma apply_rows_readable rows :
  forallb row_readable rows = true ->
  exists rows', apply_rows loads_if_str zones_col (map (map fetch) rows) = inr rows'.
Proof.
  induction rows as [|srow rows IH]; cbn [forallb map apply_rows].
  - eexists; reflexivity.
  - intros Hr. apply andb_true_iff in Hr as [Hr Hrs].
    destruct (IH Hrs) as (rest & ->).
    destruct (map fetch srow !! zones_col) as [x|] eqn:Hx.
    + destruct (loads_fetch_readable srow x Hr Hx) as (y & ->).
      eexists; reflexivity.
    + eexists; reflexivity.
Qed.

(** A row with an unreadable [usda_zones] cell makes the whole column
    fail. *)
Lemma apply_rows_unreadable rows srow s ex :
  In srow rows -> srow !! zones_col = Some (SText s) -> json_loads s = inl ex ->
  exists ex', apply_rows loads_if_str zones_col (map (map fetch) rows) = inl ex'.
Proof.
  intros Hin Hcell Hbad. induction rows as [|r rows IH]; [contradiction|].
  cbn [map apply_rows]. destruct Hin as [->|Hin].
  - rewrite list_lookup_fmap, Hcell. cbn [fmap option_fmap option_map loads_if_str fetch].
    rewrite Hbad. eexists; reflexivity.
  - destruct (IH Hin) as (ex' & ->).
    destruct (map fetch r !! zones_col) as [x|].
    + destruct (loads_if_str x); eexists; reflexivity.
    + eexists; reflexivity.
Qed.

Lemma loads_int_items l :
  json_loads (91 :: int_items l ++ [93]) = inr (PList (map PInt l)).
Proof.
  destruct (loads_dumps_int_list l) as (t & Hd & Hl).
  unfold json_dumps in Hd. rewrite encode_int_list in Hd.
  injection Hd as <-. exact Hl.
Qed.

Lemma apply_rows_plant r :
  apply_rows loads_if_str zones_col [map fetch (stored_row r)] = inr [read_row r].
Proof.
  cbn [apply_rows]. unfold stored_row. cbn [map fetch lookup list_lookup zones_col].
  cbn [loads_if_str]. rewrite loads_int_items. reflexivity.
Qed.

(** *** The primary key *)

Lemma key_of_no_pk cols : forall r : row,
  forallb (fun c => negb (col_pk c)) cols = true -> key_of cols r = [].
Proof.
  induction cols as [|c cols IH]; intros r Hc; [reflexivity|].
  cbn [forallb] in Hc. apply andb_true_iff in Hc as [Hc Hcs].
  apply negb_true_iff in Hc. destruct r as [|v r]; [reflexivity|].
  cbn [key_of]. rewrite Hc. apply IH, Hcs.
Qed.

Lemma key_of_cons c cols v (r : row) :
  key_of (c :: cols) (v :: r)
  = if col_pk c then v :: key_of cols r else key_of cols r.
Proof. reflexivity. Qed.

Lemma key_of_plants v (r : row) : key_of plants_columns (v :: r) = [v].
Proof.
  assert (plants_columns = hd (text_col "") plants_columns :: tl plants_columns)
    as -> by reflexivity.
  rewrite key_of_cons. change (col_pk (hd _ plants_columns)) with true.
  cbv iota. f_equal. apply key_of_no_pk. reflexivity.
Qed.

Lemma key_of_plants_nil : key_of plants_columns ([] : row) = [].
Proof. reflexivity. Qed.

Lemma conflicts_stored r (old : row) :
  conflicts plants_columns (stored_row r) old = row_has_id (p_id r) old.
Proof.
  unfold conflicts. change (stored_row r) with (SText (p_id r) :: tl (stored_row r)).
  rewrite key_of_plants. cbn [forallb]. rewrite andb_true_r.
  change (negb (bool_decide (SText (p_id r) = SNull))) with true.
  destruct old as [|v old].
  - rewrite key_of_plants_nil. reflexivity.
  - rewrite key_of_plants. cbn [row_has_id].
    destruct v; try (apply bool_decide_eq_false; congruence).
    apply bool_decide_ext. split; intros Heq; congruence.
Qed.

Lemma insert_or_replace_stored r rows :
  insert_or_replace plants_columns (stored_row r) rows
  = List.filter (fun old => negb (row_has_id (p_id r) old)) rows ++ [stored_row r].
Proof.
  unfold insert_or_replace. f_equal. apply filter_ext.
  intros old. rewrite conflicts_stored. reflexivity.
Qed.

Lemma row_has_id_stored r : row_has_id (p_id r) (stored_row r) = true.
Proof. cbn. apply bool_decide_eq_true. reflexivity. Qed.

End Rows.

(** * The claims of the specification *)

Section RoundTrip.
Context `{Float64}.

Lemma filter_has_id_fetched i (rows : list row) : forall prows,
  Forall2 fetched_but_zones rows prows ->
  forallb (fun srow => negb (row_has_id i srow)) rows = true ->
  List.filter (has_id i) prows = [].
Proof.
  induction rows as [|srow rows IH]; intros prows Hf Hn.
  - inversion Hf. reflexivity.
  - inversion Hf as [|? prow ? prest Hrow Hrest]; subst.
    cbn [forallb] in Hn. apply andb_true_iff in Hn as [Hn Hns].
    cbn [List.filter]. rewrite (IH prest Hrest Hns).
    assert (has_id i prow = false) as ->; [|reflexivity].
    pose proof (Hrow 0%nat ltac:(discriminate)) as H0.
    destruct prow as [|v prow]; [reflexivity|].
    destruct v; try reflexivity. cbn [has_id].
    apply bool_decide_eq_false. intros ->.
    destruct srow as [|c srow]; [discriminate|].
    cbn in H0. injection H0 as H0.
    destruct c; try discriminate. cbn in H0. injection H0 as <-.
    cbn in Hn. apply negb_true_iff, bool_decide_eq_false in Hn. contradiction.
Qed.

Lemma forallb_filter_same {A} (f : A -> bool) l : forallb f (List.filter f l) = true.
Proof.
  induction l as [|x l IH]; [reflexivity|].
  cbn [List.filter]. destruct (f x) eqn:Hx; [|exact IH].
  cbn [forallb]. rewrite Hx. exact IH.
Qed.

Lemma forallb_filter_keep {A} (f g : A -> bool) l :
  forallb f l = true -> forallb f (List.filter g l) = true.
Proof.
  induction l as [|x l IH]; [reflexivity|].
  cbn [forallb List.filter]. intros Hl. apply andb_true_iff in Hl as [Hx Hl].
  destruct (g x); [|exact (IH Hl)]. cbn [forallb]. rewrite Hx. exact (IH Hl).
Qed.

Lemma has_id_read_row r : has_id (p_id r) (read_row r) = true.
Proof. cbn. apply bool_decide_eq_true. reflexivity. Qed.


End RoundTrip.



Section Overwrite.
Context `{Float64}.

Lemma filter_filter_neg {A} (f : A -> bool) l :
  List.filter f (List.filter (fun x => negb (f x)) l) = [].
Proof.
  induction l as [|x l IH]; [reflexivity|].
  cbn [List.filter]. destruct (f x) eqn:Hx; cbn [negb List.filter].
  - exact IH.
  - rewrite Hx. exact IH.
Qed.

Lemma filter_idem {A} (f : A -> bool) l :
  List.filter f (List.filter f l) = List.filter f l.
Proof.
  induction l as [|x l IH]; [reflexivity|].
  cbn [List.filter]. destruct (f x) eqn:Hx; [|exact IH].
  cbn [List.filter]. rewrite Hx, IH. reflexivity.
Qed.


End Overwrite.


Section WriteFailures.
Context `{Float64}.

(** C3 (the code at the failing input).  When the statement of
    [save_plant] fails in the storage layer, the exception leaves
    [save_plant]: nothing is notified, the table is as it was, and the
    connection stays open. *)
Theorem save_plant_storage_failure_escapes e r w rows err :
  connect_fault e = None -> execute_fault e = Some err ->
  storable r = true -> db_table w = Some rows ->
  save_plant e (to_dict r) w
  = (inl (SqliteError err), with_open (S (open_conns w)) w).
Proof.
  intros Hc Hx Hr Ht. unfold save_plant.
  rewrite (bind_ok _ _ _ _ _ (connect_ok e DB_NAME w Hc)).
  rewrite (bind_ok _ _ _ _ _ (insert_params_plant r _)).
  apply bind_raise.
  unfold execute_insert_or_replace, conn_view. cbn [txn].
  rewrite (bind_ok _ _ _ (Some rows) _) by (cbn; rewrite Ht; reflexivity).
  change (negb (length (params_of r) =? length plants_columns)%nat) with false.
  cbv iota.
  rewrite (bind_ok _ _ _ (stored_row r) _)
    by (rewrite (adapt_params r Hr); reflexivity).
  rewrite Hx. reflexivity.
Qed.

End WriteFailures.

Lemma save_plant_storage_failure_escapes_witness :
  save_plant locked_env (to_dict aloe) empty_store
  = (inl (SqliteError (OperationalError "database is locked")),
     with_open 1 empty_store).
Proof.
  apply (save_plant_storage_failure_escapes locked_env aloe empty_store []);
    reflexivity.
Defined.

Section AbsentSequences.
Context `{Float64}.

Lemma insert_params_images p w :
  p !! "images" = None ->
  insert_params p w = insert_params (<["images" := PList []]> p) w.
Proof.
  intros Hnone. unfold insert_params, getitem, get_default.
  rewrite lookup_insert_eq, Hnone.
  rewrite !lookup_insert_ne by (intros ?; discriminate). reflexivity.
Qed.

Lemma insert_params_sources p w :
  p !! "grounding_sources" = None ->
  insert_params p w = insert_params (<["grounding_sources" := PList []]> p) w.
Proof.
  intros Hnone. unfold insert_params, getitem, get_default.
  rewrite lookup_insert_eq, Hnone.
  rewrite !lookup_insert_ne by (intros ?; discriminate). reflexivity.
Qed.

Lemma save_plant_params e p q w :
  (forall w', insert_params p w' = insert_params q w') ->
  save_plant e p w = save_plant e q w.
Proof.
  intros Hpq. unfold save_plant, bind.
  destruct (sqlite3_connect e DB_NAME w) as [[ex|conn] w1]; [reflexivity|].
  rewrite Hpq. reflexivity.
Qed.

Lemma insert_params_no_media r w :
  insert_params (delete "images" (delete "grounding_sources" (to_dict r))) w
  = (inr (params_of (no_media r)), w).
Proof.
  rewrite <- (insert_params_plant (no_media r) w).
  rewrite insert_params_images by (apply lookup_delete_eq).
  rewrite insert_params_sources
    by (rewrite lookup_insert_ne by (intros ?; discriminate);
        rewrite lookup_delete_ne by (intros ?; discriminate);
        apply lookup_delete_eq).
  f_equal; reflexivity.
Qed.


End AbsentSequences.



Section Research.
Context `{Float64}.

(** C5.  With no API key in the secrets store and none in the process
    environment, [perform_research] returns [None] at once: it shows the
    warning and sends nothing to the remote model. *)
Theorem research_without_key_is_offline e common scientific description w :
  secrets e !! "API_KEY" = None -> environ e !! "API_KEY" = None ->
  perform_research e common scientific description w
  = (inr PNone, with_note offline_warning w)
  /\ net_calls (with_note offline_warning w) = net_calls w.
Proof.
  intros Hs He. split; [|reflexivity].
  unfold perform_research, secrets_get, environ_get. rewrite Hs, He.
  reflexivity.
Qed.

(** C6.  With a key configured, when the call to the remote model raises
    or its answer is not JSON, [perform_research] catches the failure,
    shows it as an error and returns [None]; the model was called once. *)
Theorem research_failure_is_reported e common scientific description w ex :
  truthy (py_or (secrets_get e "API_KEY") (environ_get e "API_KEY")) = true ->
  (remote e (prompt_of common scientific description) = inl ex
   \/ exists text, remote e (prompt_of common scientific description) = inr text
                   /\ json_loads text = inl ex) ->
  perform_research e common scientific description w
  = (inr PNone, after_failed_call (prompt_of common scientific description) ex w).
Proof.
  intros Hkey Hfail. unfold perform_research. rewrite Hkey. cbn [negb].
  set (prompt := prompt_of common scientific description) in *.
  set (w1 := {| db_table := db_table w; open_conns := open_conns w;
                st_log := st_log w; net_calls := net_calls w ++ [prompt] |}).
  assert ((let* text := generate_content e prompt in lift (json_loads text)) w
          = (inl ex, w1)) as Hbody.
  { unfold generate_content, record_call.
    destruct Hfail as [Hr|(text & Hr & Hj)].
    - apply bind_raise. unfold bind, lift. rewrite Hr. reflexivity.
    - rewrite (bind_ok _ _ w text w1)
        by (unfold bind, lift; rewrite Hr; reflexivity).
      unfold lift. rewrite Hj. reflexivity. }
  rewrite (try_except_raise _ _ w ex w1 Hbody). reflexivity.
Qed.

End Research.

Lemma research_without_key_is_offline_witness :
  perform_research quiet_env (str "Aloe") [] [] fresh_world
  = (inr PNone, with_note offline_warning fresh_world)
  /\ net_calls (with_note offline_warning fresh_world) = net_calls fresh_world.
Proof.
  apply (research_without_key_is_offline quiet_env (str "Aloe") [] [] fresh_world);
    reflexivity.
Defined.

Lemma research_failure_is_reported_witness :
  perform_research (keyed_env (inr (str "Sorry, I cannot help."))) (str "Aloe") [] []
    fresh_world
  = (inr PNone,
     after_failed_call (prompt_of (str "Aloe") [] []) JSONDecodeError fresh_world).
Proof.
  apply (research_failure_is_reported
           (keyed_env (inr (str "Sorry, I cannot help."))) (str "Aloe") [] []
           fresh_world JSONDecodeError).
  - reflexivity.
  - right. exists (str "Sorry, I cannot help."). split; reflexivity.
Defined.

Section Connections.
Context `{Float64}.

Lemma pure_ret {A} (a : A) : pure (ret a).
Proof. intros w. reflexivity. Qed.

Lemma pure_raise {A} ex : pure (raise (A := A) ex).
Proof. intros w. reflexivity. Qed.

Lemma pure_lift {A} (r : exn + A) : pure (lift r).
Proof. destruct r; [apply pure_raise|apply pure_ret]. Qed.

Lemma pure_bind {A B} (m : M A) (k : A -> M B) :
  pure m -> (forall a, pure (k a)) -> pure (bind m k).
Proof.
  intros Hm Hk w. unfold bind. pose proof (Hm w) as Hw.
  destruct (m w) as [[ex|a] w1]; cbn in Hw; subst w1; [reflexivity|apply Hk].
Qed.

Lemma pure_getitem p k : pure (getitem p k).
Proof. unfold getitem. destruct (p !! k); [apply pure_ret|apply pure_raise]. Qed.

Lemma pure_dumps v : pure (dumps v).
Proof.
  unfold dumps. apply pure_bind; [apply pure_lift|intros; apply pure_ret].
Qed.

(** Evaluating the parameters touches neither the store nor the
    connections. *)
Lemma pure_insert_params p : pure (insert_params p).
Proof.
  unfold insert_params.
  repeat (apply pure_bind; [first [apply pure_getitem|apply pure_dumps]|intros ?]).
  apply pure_ret.
Qed.

Lemma pure_fault f : pure (fault f).
Proof. destruct f; [apply pure_raise|apply pure_ret]. Qed.

Lemma pure_conn_view conn : pure (conn_view conn).
Proof.
  unfold conn_view. destruct (txn conn); [apply pure_ret|].
  intros w. reflexivity.
Qed.

Lemma pure_execute_insert e conn params :
  pure (execute_insert_or_replace e conn params).
Proof.
  unfold execute_insert_or_replace.
  apply pure_bind; [apply pure_conn_view|]. intros [rows|]; [|apply pure_raise].
  destruct (negb _); [apply pure_raise|].
  apply pure_bind; [apply pure_lift|]. intros cells.
  apply pure_bind; [apply pure_fault|]. intros _. apply pure_ret.
Qed.

Lemma commit_open e conn w c w' :
  conn_commit e conn w = (inr c, w') -> open_conns w' = open_conns w.
Proof.
  unfold conn_commit. destruct (txn conn) as [t|].
  - destruct (commit_fault e); cbn; intros Heq; [discriminate|].
    injection Heq as _ <-. reflexivity.
  - cbn. intros Heq. injection Heq as _ <-. reflexivity.
Qed.

Lemma create_open e conn w c w' :
  execute_create_table e conn w = (inr c, w') -> open_conns w' = open_conns w.
Proof.
  unfold execute_create_table, conn_view.
  destruct (execute_fault e); cbn; [discriminate|].
  destruct (txn conn) as [[rows|]|]; cbn.
  - intros Heq. injection Heq as _ <-. reflexivity.
  - intros Heq. injection Heq as _ <-. reflexivity.
  - destruct (db_table w); cbn; intros Heq; injection Heq as _ <-; reflexivity.
Qed.

Lemma connect_open e name w c w' :
  sqlite3_connect e name w = (inr c, w') -> open_conns w' = S (open_conns w).
Proof.
  unfold sqlite3_connect. destruct (connect_fault e); cbn; [discriminate|].
  intros Heq. injection Heq as _ <-. reflexivity.
Qed.

Lemma init_db_closes e w w' :
  init_db e w = (inr tt, w') -> open_conns w' = open_conns w.
Proof.
  unfold init_db, bind.
  destruct (sqlite3_connect e DB_NAME w) as [[ex|c0] w0] eqn:H0; [discriminate|].
  destruct (execute_create_table e c0 w0) as [[ex|c1] w1] eqn:H1; [discriminate|].
  destruct (conn_commit e c1 w1) as [[ex|c2] w2] eqn:H2; [discriminate|].
  rewrite close_ok. intros Heq. injection Heq as <-. cbn [open_conns with_open].
  rewrite (commit_open _ _ _ _ _ H2), (create_open _ _ _ _ _ H1),
    (connect_open _ _ _ _ _ H0). reflexivity.
Qed.

Lemma save_plant_closes e p w w' :
  save_plant e p w = (inr tt, w') -> open_conns w' = open_conns w.
Proof.
  unfold save_plant, bind.
  destruct (sqlite3_connect e DB_NAME w) as [[ex|c0] w0] eqn:H0; [discriminate|].
  pose proof (pure_insert_params p w0) as Hp.
  destruct (insert_params p w0) as [[ex|params] w1]; [discriminate|].
  cbn in Hp. subst w1.
  pose proof (pure_execute_insert e c0 params w0) as Hx.
  destruct (execute_insert_or_replace e c0 params w0) as [[ex|c1] w1];
    [discriminate|].
  cbn in Hx. subst w1.
  destruct (conn_commit e c1 w0) as [[ex|c2] w2] eqn:H2; [discriminate|].
  rewrite close_ok. intros Heq. injection Heq as <-. cbn [open_conns with_open].
  rewrite (commit_open _ _ _ _ _ H2), (connect_open _ _ _ _ _ H0). reflexivity.
Qed.

(** The outcomes of [get_all_plants]: the decoded table, with the world
    as it was, or the empty table and one notification. *)
Lemma get_all_plants_cases e w :
  (exists rows prows,
      connect_fault e = None /\ query_fault e = None
      /\ db_table w = Some rows
      /\ apply_rows loads_if_str zones_col (map (map fetch) rows) = inr prows
      /\ get_all_plants e w
         = (inr {| df_columns := map col_name plants_columns; df_rows := prows |}, w))
  \/ (exists ex w',
      get_all_plants e w
      = (inr empty_frame, with_note (StError "Vault Read Error: " ex) w')
      /\ st_log w' = st_log w /\ db_table w' = db_table w).
Proof.
  destruct (connect_fault e) as [err|] eqn:Hc.
  { right. exists (SqliteError err), w. split; [|split; reflexivity].
    unfold get_all_plants.
    rewrite (try_except_raise _ _ w (SqliteError err) w); [reflexivity|].
    apply bind_raise, connect_fails, Hc. }
  destruct (query_fault e) as [err|] eqn:Hq.
  { right. exists (SqliteError err), (with_open (S (open_conns w)) w).
    split; [|split; reflexivity].
    unfold get_all_plants.
    rewrite (try_except_raise _ _ w (SqliteError err) (with_open (S (open_conns w)) w));
      [reflexivity|].
    rewrite (bind_ok _ _ _ _ _ (connect_ok e DB_NAME w Hc)).
    apply bind_raise. unfold read_sql_query. rewrite Hq. reflexivity. }
  destruct (db_table w) as [rows|] eqn:Ht.
  - pose proof (get_all_plants_read e w rows Hc Hq Ht) as Hread.
    destruct (apply_rows loads_if_str zones_col (map (map fetch) rows))
      as [ex|prows] eqn:Hrows.
    + right. exists ex, w. split; [exact Hread|split; [reflexivity|exact Ht]].
    + left. exists rows, prows. repeat split; try assumption; reflexivity.
  - right. exists (SqliteError (DatabaseError "no such table: plants")),
      (with_open (S (open_conns w)) w).
    split; [|split; [reflexivity|exact Ht]].
    unfold get_all_plants.
    rewrite (try_except_raise _ _ w
               (SqliteError (DatabaseError "no such table: plants"))
               (with_open (S (open_conns w)) w)); [reflexivity|].
    rewrite (bind_ok _ _ _ _ _ (connect_ok e DB_NAME w Hc)).
    apply bind_raise. unfold read_sql_query, conn_view. rewrite Hq. cbn [fault txn].
    rewrite (bind_ok _ _ _ tt _) by reflexivity.
    rewrite (bind_ok _ _ _ None _) by (cbn; rewrite Ht; reflexivity).
    reflexivity.
Qed.

Lemma log_grows (l : list notification) n : l ++ [n] <> l.
Proof.
  intros Heq. apply (f_equal (@length _)) in Heq.
  rewrite length_app in Heq. cbn in Heq. lia.
Qed.


End Connections.



Section Schema.
Context `{Float64}.

Lemma init_db_ensures e w :
  connect_fault e = None -> execute_fault e = None ->
  init_db e w = (inr tt, ensured w).
Proof.
  intros Hc Hx. unfold init_db.
  rewrite (bind_ok _ _ _ _ _ (connect_ok e DB_NAME w Hc)).
  unfold execute_create_table, conn_view. rewrite Hx. cbn [fault txn].
  destruct w as [t n lg nc]. destruct t as [rows|]; reflexivity.
Qed.

Lemma ensured_idem w : ensured (ensured w) = ensured w.
Proof. destruct w as [[rows|] n lg nc]; reflexivity. Qed.

(** C8.  With a storage layer that answers, [init_db] called [n] times,
    [n >= 1], returns normally each time and leaves the store as one
    call does: the table [plants] with the 21 columns of the data model
    and the primary key [id], empty if it had to be created, untouched
    if it was there. *)
Theorem init_db_idempotent e w n :
  connect_fault e = None -> execute_fault e = None -> (1 <= n)%nat ->
  repeat_m n (init_db e) w = init_db e w
  /\ init_db e w = (inr tt, ensured w)
  /\ (forall rows, db_table w = Some rows -> ensured w = w)
  /\ (db_table w = None -> db_table (ensured w) = Some [])
  /\ length plants_columns = 21%nat
  /\ map col_name (List.filter col_pk plants_columns) = ["id"].
Proof.
  intros Hc Hx Hn. split; [|split; [|split; [|split; [|split; reflexivity]]]].
  - rewrite (init_db_ensures e w Hc Hx).
    destruct n as [|n]; [lia|]. clear Hn.
    revert w. induction n as [|n IH]; intros w.
    + cbn [repeat_m]. rewrite (bind_ok _ _ _ _ _ (init_db_ensures e w Hc Hx)).
      reflexivity.
    + change (repeat_m (S (S n)) (init_db e))
        with (let* _ := init_db e in repeat_m (S n) (init_db e)).
      rewrite (bind_ok _ _ _ _ _ (init_db_ensures e w Hc Hx)).
      rewrite IH, ensured_idem. reflexivity.
  - apply init_db_ensures; assumption.
  - intros rows Ht. destruct w as [t k lg nc]. cbn in Ht. subst t. reflexivity.
  - intros Ht. unfold ensured. rewrite Ht. reflexivity.
Qed.

End Schema.

Lemma init_db_idempotent_witness :
  repeat_m 3 (init_db quiet_env) fresh_world = init_db quiet_env fresh_world
  /\ init_db quiet_env fresh_world = (inr tt, ensured fresh_world)
  /\ (forall rows, db_table fresh_world = Some rows -> ensured fresh_world = fresh_world)
  /\ (db_table fresh_world = None -> db_table (ensured fresh_world) = Some [])
  /\ length plants_columns = 21%nat
  /\ map col_name (List.filter col_pk plants_columns) = ["id"].
Proof.
  apply (init_db_idempotent quiet_env fresh_world 3); [reflexivity|reflexivity|lia].
Defined.

Section DamagedRows.
Context `{Float64}.

Lemma json_loads_error s ex : json_loads s = inl ex -> ex = JSONDecodeError.
Proof.
  unfold json_loads. destruct (starts_with_bom s); [congruence|].
  destruct (scan_once _ _) as [[v rest]|]; [|congruence].
  destruct (skip_ws rest); congruence.
Qed.

Lemma apply_rows_error rows : forall ex,
  apply_rows loads_if_str zones_col rows = inl ex -> ex = JSONDecodeError.
Proof.
  induction rows as [|r rows IH]; intros ex; cbn [apply_rows]; [discriminate|].
  destruct (r !! zones_col) as [x|].
  - destruct (loads_if_str x) as [ex'|y] eqn:Hx.
    + intros Heq. injection Heq as <-.
      destruct x; cbn in Hx; try discriminate. apply (json_loads_error _ _ Hx).
    + destruct (apply_rows loads_if_str zones_col rows) as [ex'|rest];
        [|discriminate].
      intros Heq. injection Heq as <-. apply IH. reflexivity.
  - destruct (apply_rows loads_if_str zones_col rows) as [ex'|rest];
      [|discriminate].
    intros Heq. injection Heq as <-. apply IH. reflexivity.
Qed.



End DamagedRows.



(** * Further properties of the code *)

Section StoreProperties.
Context `{Float64}.


Lemma execute_insert_raise_world e conn params w ex w' :
  execute_insert_or_replace e conn params w = (inl ex, w') -> w' = w.
Proof.
  intros Heq. pose proof (pure_execute_insert e conn params w) as Hp.
  rewrite Heq in Hp. exact Hp.
Qed.

(** A [save_plant] that raises has written nothing and has shown
    nothing: the table and the notifications are as they were. *)
Theorem save_plant_failure_writes_nothing e p w ex w' :
  save_plant e p w = (inl ex, w') ->
  db_table w' = db_table w /\ st_log w' = st_log w /\ net_calls w' = net_calls w.
Proof.
  unfold save_plant, bind.
  destruct (sqlite3_connect e DB_NAME w) as [[ex0|c0] w0] eqn:H0.
  { unfold sqlite3_connect in H0. destruct (connect_fault e); cbn in H0.
    - injection H0 as _ <-. intros Heq. injection Heq as _ <-. auto.
    - discriminate. }
  assert (db_table w0 = db_table w /\ st_log w0 = st_log w
          /\ net_calls w0 = net_calls w) as Hw0.
  { unfold sqlite3_connect in H0. destruct (connect_fault e); cbn in H0;
      [discriminate|]. injection H0 as _ <-. auto. }
  pose proof (pure_insert_params p w0) as Hp.
  destruct (insert_params p w0) as [[ex1|params] w1]; cbn in Hp; subst w1.
  { intros Heq. injection Heq as _ <-. exact Hw0. }
  pose proof (pure_execute_insert e c0 params w0) as Hx.
  destruct (execute_insert_or_replace e c0 params w0) as [[ex2|c1] w1];
    cbn in Hx; subst w1.
  { intros Heq. injection Heq as _ <-. exact Hw0. }
  destruct (conn_commit e c1 w0) as [[ex3|c2] w2] eqn:H2.
  - intros Heq. injection Heq as _ <-.
    unfold conn_commit in H2. destruct (txn c1).
    + destruct (commit_fault e); cbn in H2; [|discriminate].
      injection H2 as _ <-. exact Hw0.
    + discriminate.
  - rewrite close_ok. discriminate.
Qed.


Section Respect.
Variable R : world -> world -> Prop.
Hypothesis R_refl : forall w, R w w.
Hypothesis R_trans : forall w1 w2 w3, R w1 w2 -> R w2 w3 -> R w1 w3.

Lemma respects_ret {A} (a : A) : respects R (ret a).
Proof. intros w. apply R_refl. Qed.

Lemma respects_raise {A} ex : respects R (raise (A := A) ex).
Proof. intros w. apply R_refl. Qed.

Lemma respects_lift {A} (r : exn + A) : respects R (lift r).
Proof. destruct r; [apply respects_raise|apply respects_ret]. Qed.

Lemma respects_fault f : respects R (fault f).
Proof. destruct f; [apply respects_raise|apply respects_ret]. Qed.

Lemma respects_bind {A B} (m : M A) (k : A -> M B) :
  respects R m -> (forall a, respects R (k a)) -> respects R (bind m k).
Proof.
  intros Hm Hk w. unfold bind. pose proof (Hm w) as Hw.
  destruct (m w) as [[ex|a] w1]; cbn in Hw; [exact Hw|].
  apply (R_trans _ w1); [exact Hw|apply Hk].
Qed.

Lemma respects_try {A} (m : M A) h :
  respects R m -> (forall ex, respects R (h ex)) -> respects R (try_except m h).
Proof.
  intros Hm Hh w. unfold try_except. pose proof (Hm w) as Hw.
  destruct (m w) as [[ex|a] w1]; cbn in Hw; [|exact Hw].
  apply (R_trans _ w1); [exact Hw|apply Hh].
Qed.

Lemma respects_conn_view conn : respects R (conn_view conn).
Proof.
  unfold conn_view. destruct (txn conn); [apply respects_ret|].
  intros w. apply R_refl.
Qed.

End Respect.

Lemma quiet_refl w : quiet_on_store_and_net w w.
Proof. split; reflexivity. Qed.

Lemma quiet_trans w1 w2 w3 :
  quiet_on_store_and_net w1 w2 -> quiet_on_store_and_net w2 w3 ->
  quiet_on_store_and_net w1 w3.
Proof. intros [H1 H2] [H3 H4]. split; congruence. Qed.

Lemma connect_quiet e name : respects quiet_on_store_and_net (sqlite3_connect e name).
Proof.
  unfold sqlite3_connect.
  apply (respects_bind _ quiet_trans); [apply (respects_fault _ quiet_refl)|intros _].
  apply (respects_bind _ quiet_trans); [intros w0; split; reflexivity|intros w1].
  apply (respects_bind _ quiet_trans); [intros w0; split; reflexivity|intros _].
  apply (respects_ret _ quiet_refl).
Qed.

Lemma read_quiet e conn : respects quiet_on_store_and_net (read_sql_query e conn).
Proof.
  unfold read_sql_query.
  apply (respects_bind _ quiet_trans); [apply (respects_fault _ quiet_refl)|intros _].
  apply (respects_bind _ quiet_trans);
    [apply (respects_conn_view _ quiet_refl)|intros [rows|]].
  - apply (respects_ret _ quiet_refl).
  - apply (respects_raise _ quiet_refl).
Qed.

Lemma get_all_plants_quiet e : respects quiet_on_store_and_net (get_all_plants e).
Proof.
  unfold get_all_plants.
  apply (respects_try _ quiet_trans); [|intros ex].
  - apply (respects_bind _ quiet_trans); [apply connect_quiet|intros conn].
    apply (respects_bind _ quiet_trans); [apply read_quiet|intros df].
    apply (respects_bind _ quiet_trans); [intros w0; split; reflexivity|intros _].
    apply (respects_lift _ quiet_refl).
  - apply (respects_bind _ quiet_trans); [intros w0; split; reflexivity|intros _].
    apply (respects_ret _ quiet_refl).
Qed.

(** [get_all_plants] never raises, never changes the table and sends
    nothing to the remote model; either the world is as it was, or it
    returns the empty table and has shown one error. *)
Theorem get_all_plants_never_raises e w :
  exists df w',
    get_all_plants e w = (inr df, w')
    /\ db_table w' = db_table w /\ net_calls w' = net_calls w
    /\ (w' = w
        \/ (df = empty_frame
            /\ exists ex, st_log w' = st_log w ++ [StError "Vault Read Error: " ex])).
Proof.
  pose proof (get_all_plants_quiet e w) as [Ht Hn].
  destruct (get_all_plants_cases e w)
    as [(rows & prows & _ & _ & _ & _ & Hok)|(ex & w1 & Hfail & Hl & _)].
  - eexists _, w. split; [exact Hok|]. auto.
  - rewrite Hfail in Ht, Hn. cbn [snd] in Ht, Hn.
    exists empty_frame, (with_note (StError "Vault Read Error: " ex) w1).
    split; [exact Hfail|]. split; [exact Ht|]. split; [exact Hn|].
    right. split; [reflexivity|]. exists ex. cbn. rewrite Hl. reflexivity.
Qed.

End StoreProperties.

Lemma save_plant_failure_writes_nothing_witness :
  db_table (with_open 1 empty_store) = db_table empty_store
  /\ st_log (with_open 1 empty_store) = st_log empty_store
  /\ net_calls (with_open 1 empty_store) = net_calls empty_store.
Proof.
  apply (save_plant_failure_writes_nothing locked_env (to_dict aloe) empty_store
           (SqliteError (OperationalError "database is locked"))).
  vm_compute. reflexivity.
Defined.


Section ReadProperties.
Context `{Float64}.

(** An empty table and a missing table both read as an empty result,
    the first silently and with its 21 columns, the second with an
    error shown and the connection left open. *)
Theorem read_of_empty_or_missing_table e w :
  connect_fault e = None -> query_fault e = None ->
  (db_table w = Some [] ->
     get_all_plants e w
     = (inr {| df_columns := map col_name plants_columns; df_rows := [] |}, w)
     /\ df_empty {| df_columns := map col_name plants_columns; df_rows := [] |} = true)
  /\ (db_table w = None ->
     get_all_plants e w
     = (inr empty_frame,
        with_note (StError "Vault Read Error: "
                     (SqliteError (DatabaseError "no such table: plants")))
          (with_open (S (open_conns w)) w))
     /\ df_empty empty_frame = true).
Proof.
  intros Hc Hq. split; intros Ht.
  - split; [|reflexivity].
    rewrite (get_all_plants_read e w [] Hc Hq Ht). reflexivity.
  - split; [|reflexivity]. unfold get_all_plants.
    rewrite (try_except_raise _ _ w
               (SqliteError (DatabaseError "no such table: plants"))
               (with_open (S (open_conns w)) w)); [reflexivity|].
    rewrite (bind_ok _ _ _ _ _ (connect_ok e DB_NAME w Hc)).
    apply bind_raise. unfold read_sql_query, conn_view. rewrite Hq. cbn [fault txn].
    rewrite (bind_ok _ _ _ tt _) by reflexivity.
    rewrite (bind_ok _ _ _ None _) by (cbn; rewrite Ht; reflexivity).
    reflexivity.
Qed.

Lemma apply_rows_zones rows : forall prows,
  apply_rows loads_if_str zones_col (map (map fetch) rows) = inr prows ->
  Forall2 (fun srow prow => zones_cell_of (srow !! zones_col) (prow !! zones_col))
          rows prows.
Proof.
  induction rows as [|srow rows IH]; intros prows Hrows; cbn [map apply_rows] in Hrows.
  - injection Hrows as <-. constructor.
  - rewrite list_lookup_fmap in Hrows.
    destruct (srow !! zones_col) as [c|] eqn:Hc; cbn [fmap option_fmap option_map] in Hrows.
    + destruct (loads_if_str (fetch c)) as [ex|y] eqn:Hy; [discriminate|].
      destruct (apply_rows loads_if_str zones_col (map (map fetch) rows))
        as [ex|rest]; [discriminate|].
      injection Hrows as <-. constructor; [|apply IH; reflexivity].
      assert (<[zones_col := y]> (map fetch srow) !! zones_col = Some y) as Hcell.
      { apply list_lookup_insert_eq. rewrite length_map.
        apply lookup_lt_Some in Hc. exact Hc. }
      rewrite Hcell. unfold zones_cell_of. rewrite Hc. clear Hc Hcell.
      destruct c; cbn [fetch loads_if_str] in Hy; cbv iota beta;
        try (injection Hy as <-; reflexivity).
      exists y. split; [exact Hy|reflexivity].
    + destruct (apply_rows loads_if_str zones_col (map (map fetch) rows))
        as [ex|rest]; [discriminate|].
      injection Hrows as <-. constructor; [|apply IH; reflexivity].
      rewrite list_lookup_fmap. unfold zones_cell_of. rewrite Hc. reflexivity.
Qed.

(** In every row [get_all_plants] returns, the [usda_zones] cell is the
    decoded JSON value when the stored cell is text, and the stored
    cell as fetched (NULL as [None], a number as it is) otherwise. *)
Theorem read_all_zones_cell e w df w' k prow :
  get_all_plants e w = (inr df, w') -> df_rows df !! k = Some prow ->
  exists rows srow,
    db_table w = Some rows /\ rows !! k = Some srow
    /\ zones_cell_of (srow !! zones_col) (prow !! zones_col).
Proof.
  intros Hget Hk.
  destruct (get_all_plants_cases e w)
    as [(rows & prows & _ & _ & Ht & Hrows & Hok)|(ex & w1 & Hfail & _)].
  - rewrite Hok in Hget. injection Hget as <- <-. cbn [df_rows] in Hk.
    pose proof (apply_rows_zones rows prows Hrows) as Hf.
    destruct (Forall2_lookup_r _ _ _ _ _ Hf Hk) as (srow & Hs & Hrow).
    exists rows, srow. auto.
  - rewrite Hfail in Hget. injection Hget as <- _. discriminate Hk.
Qed.

End ReadProperties.

Lemma read_of_empty_or_missing_table_witness :
  (db_table empty_store = Some [] ->
     get_all_plants quiet_env empty_store
     = (inr {| df_columns := map col_name plants_columns; df_rows := [] |}, empty_store)
     /\ df_empty {| df_columns := map col_name plants_columns; df_rows := [] |} = true)
  /\ (db_table empty_store = None ->
     get_all_plants quiet_env empty_store
     = (inr empty_frame,
        with_note (StError "Vault Read Error: "
                     (SqliteError (DatabaseError "no such table: plants")))
          (with_open (S (open_conns empty_store)) empty_store))
     /\ df_empty empty_frame = true).
Proof.
  apply (read_of_empty_or_missing_table quiet_env empty_store); reflexivity.
Defined.

Lemma read_all_zones_cell_witness :
  exists rows srow,
    db_table (with_table (Some [stored_row aloe]) empty_store) = Some rows
    /\ rows !! 0%nat = Some srow
    /\ zones_cell_of (srow !! zones_col) (read_row aloe !! zones_col).
Proof.
  apply (read_all_zones_cell quiet_env
           (with_table (Some [stored_row aloe]) empty_store)
           {| df_columns := map col_name plants_columns;
              df_rows := [read_row aloe] |}
           (with_table (Some [stored_row aloe]) empty_store)
           0%nat (read_row aloe)).
  - vm_compute. reflexivity.
  - reflexivity.
Defined.

Section ResearchProperties.
Context `{Float64}.

Lemma perform_research_ok e common scientific description w text v :
  has_key e = true ->
  remote e (prompt_of common scientific description) = inr text ->
  json_loads text = inr v ->
  perform_research e common scientific description w
  = (inr v, after_call (prompt_of common scientific description) w).
Proof.
  intros Hkey Hr Hj. unfold has_key in Hkey. unfold perform_research.
  rewrite Hkey. cbn [negb].
  apply try_except_ok. unfold generate_content, record_call.
  rewrite (bind_ok _ _ w text
             (after_call (prompt_of common scientific description) w))
    by (unfold bind, lift; rewrite Hr; reflexivity).
  unfold lift. rewrite Hj. reflexivity.
Qed.

Lemma perform_research_offline e common scientific description w :
  has_key e = false ->
  perform_research e common scientific description w
  = (inr PNone, with_note offline_warning w).
Proof.
  intros Hkey. unfold has_key in Hkey. unfold perform_research.
  rewrite Hkey. reflexivity.
Qed.

(** With a key configured and an answer that is JSON, [perform_research]
    returns the parsed value as it is, after one call to the remote
    model and without a notification. *)
Theorem research_returns_parsed_answer e common scientific description w text v :
  has_key e = true ->
  remote e (prompt_of common scientific description) = inr text ->
  json_loads text = inr v ->
  perform_research e common scientific description w
  = (inr v, after_call (prompt_of common scientific description) w)
  /\ st_log (after_call (prompt_of common scientific description) w) = st_log w
  /\ net_calls (after_call (prompt_of common scientific description) w)
     = net_calls w ++ [prompt_of common scientific description].
Proof.
  intros Hkey Hr Hj. split; [|split; reflexivity].
  apply (perform_research_ok e common scientific description w text v); assumption.
Qed.


Lemma untouched_refl w : store_untouched w w.
Proof. split; reflexivity. Qed.

Lemma untouched_trans w1 w2 w3 :
  store_untouched w1 w2 -> store_untouched w2 w3 -> store_untouched w1 w3.
Proof. intros [H1 H2] [H3 H4]. split; congruence. Qed.

Lemma perform_research_untouched e common scientific description :
  respects store_untouched (perform_research e common scientific description).
Proof.
  unfold perform_research. destruct (negb _).
  - apply (respects_bind _ untouched_trans); [intros w0; split; reflexivity|intros _].
    apply (respects_ret _ untouched_refl).
  - apply (respects_try _ untouched_trans); [|intros ex].
    + apply (respects_bind _ untouched_trans); [|intros text].
      * unfold generate_content.
        apply (respects_bind _ untouched_trans);
          [intros w0; split; reflexivity|intros _].
        apply (respects_lift _ untouched_refl).
      * apply (respects_lift _ untouched_refl).
    + apply (respects_bind _ untouched_trans); [intros w0; split; reflexivity|intros _].
      apply (respects_ret _ untouched_refl).
Qed.


End ResearchProperties.

Lemma research_returns_parsed_answer_witness :
  perform_research (keyed_env (inr (str "{}"))) (str "Aloe") [] [] fresh_world
  = (inr (PDict []), after_call (prompt_of (str "Aloe") [] []) fresh_world)
  /\ st_log (after_call (prompt_of (str "Aloe") [] []) fresh_world)
     = st_log fresh_world
  /\ net_calls (after_call (prompt_of (str "Aloe") [] []) fresh_world)
     = net_calls fresh_world ++ [prompt_of (str "Aloe") [] []].
Proof.
  apply (research_returns_parsed_answer (keyed_env (inr (str "{}")))
           (str "Aloe") [] [] fresh_world (str "{}") (PDict []));
    reflexivity.
Defined.


Section PageProperties.
Context `{Float64}.

Lemma string_of_pystr_str name : string_of_pystr (str name) = Some name.
Proof.
  unfold string_of_pystr, str.
  assert (forallb (fun c => c <? 256)
            (map (fun a => N_of_ascii a) (list_ascii_of_string name)) = true) as ->.
  { induction name as [|a name IH]; [reflexivity|].
    cbn [list_ascii_of_string map forallb]. rewrite IH, andb_true_r.
    apply N.ltb_lt, N_ascii_bounded. }
  f_equal. rewrite map_map.
  induction name as [|a name IH]; [reflexivity|].
  cbn [list_ascii_of_string map string_of_list_ascii].
  rewrite ascii_N_embedding. f_equal. exact IH.
Qed.

Lemma string_of_pystr_inv k name : string_of_pystr k = Some name -> k = str name.
Proof.
  unfold string_of_pystr. destruct (forallb _ k) eqn:Hk; [|discriminate].
  intros Heq. injection Heq as <-. unfold str.
  rewrite list_ascii_of_string_of_list_ascii, map_map.
  induction k as [|c k IH]; [reflexivity|].
  cbn [forallb] in Hk. apply andb_true_iff in Hk as [Hc Hk].
  cbn [map]. rewrite N_ascii_embedding by (apply N.ltb_lt, Hc).
  f_equal. apply IH, Hk.
Qed.

(** [save_plant] reads the dictionary by field name. *)
Lemma dict_to_map_lookup d name : dict_to_map d !! name = dict_get (str name) d.
Proof.
  induction d as [|[k v] d IH]; [apply lookup_empty|].
  cbn [dict_to_map dict_get].
  destruct (string_of_pystr k) as [nm|] eqn:Hk.
  - apply string_of_pystr_inv in Hk. subst k.
    destruct (decide (str name = str nm)) as [Heq|Hne].
    + assert (nm = name) as ->.
      { apply (f_equal string_of_pystr) in Heq.
        rewrite !string_of_pystr_str in Heq. congruence. }
      apply lookup_insert_eq.
    + rewrite lookup_insert_ne by congruence. exact IH.
  - destruct (decide (str name = k)) as [Heq|Hne]; [|exact IH].
    subst k. rewrite string_of_pystr_str in Hk. discriminate.
Qed.

Lemma dict_get_set k k' v d :
  dict_get k (dict_set k' v d) = if decide (k = k') then Some v else dict_get k d.
Proof.
  induction d as [|[k0 v0] d IH]; cbn [dict_set dict_get].
  - destruct (decide (k = k')); reflexivity.
  - destruct (decide (k' = k0)) as [->|Hne]; cbn [dict_get].
    + destruct (decide (k = k0)); reflexivity.
    + rewrite IH. destruct (decide (k = k0)) as [->|]; [|reflexivity].
      destruct (decide (k0 = k')); [congruence|reflexivity].
Qed.

Lemma submit_nonempty e c common scientific desc wish w :
  form_empty common scientific desc = false ->
  research_lab_submit e c common scientific desc wish w
  = bind (perform_research e common scientific desc)
      (fun res =>
         if truthy res then
           let* res := setitem res "id" (PStr (now_timestamp c)) in
           let* res := setitem res "date_added" (PDatetime (now c)) in
           let* res := setitem res "is_wishlist" (PBool wish) in
           let* _ := save_plant_obj e res in
           let* name := getitem_obj res "common_name" in
           ret [PageSuccess "Archived: " name; PageBalloons]
         else ret []) w.
Proof. intros Hf. unfold research_lab_submit. rewrite Hf. reflexivity. Qed.


(** Without a key the submitted form archives nothing: the warning is
    shown and the store is as it was. *)
Theorem submit_without_key_archives_nothing e c common scientific desc wish w :
  form_empty common scientific desc = false -> has_key e = false ->
  research_lab_submit e c common scientific desc wish w
  = (inr [], with_note offline_warning w).
Proof.
  intros Hf Hkey. rewrite (submit_nonempty _ _ _ _ _ _ _ Hf).
  rewrite (bind_ok _ _ _ _ _ (perform_research_offline e _ _ _ w Hkey)).
  reflexivity.
Qed.

Lemma submit_with_answer e c common scientific desc wish w text d :
  form_empty common scientific desc = false -> has_key e = true ->
  remote e (prompt_of common scientific desc) = inr text ->
  json_loads text = inr (PDict d) -> d <> [] ->
  research_lab_submit e c common scientific desc wish w
  = bind (save_plant e (dict_to_map (completed c wish d)))
      (fun _ =>
         let* name := getitem_obj (PDict (completed c wish d)) "common_name" in
         ret [PageSuccess "Archived: " name; PageBalloons])
      (after_call (prompt_of common scientific desc) w).
Proof.
  intros Hf Hkey Hr Hj Hd. rewrite (submit_nonempty _ _ _ _ _ _ _ Hf).
  rewrite (bind_ok _ _ _ _ _ (perform_research_ok e _ _ _ w text _ Hkey Hr Hj)).
  destruct d as [|kv d]; [contradiction|]. reflexivity.
Qed.

Lemma insert_params_completed c wish r w :
  insert_params (dict_to_map (completed c wish (fragment_of r))) w
  = (inr (params_of (archived c wish r)), w).
Proof.
  rewrite <- (insert_params_plant (archived c wish r) w).
  destruct r, c. unfold to_dict, values_of, archived, fragment_of, completed.
  cbn [p_id p_common_name p_scientific_name p_usda_zones p_min_temp p_max_temp
       p_drought_tolerance p_watering_requirements p_watering_frequency
       p_sunlight p_soil_type p_fertilization_schedule p_notes
       p_herbal_benefits p_herbal_properties p_herbal_dosage p_herbal_notes
       p_is_wishlist p_date_added p_images p_grounding_sources
       now now_timestamp].
  change (map PStr []) with (@nil pyval).
  remember (PList (map PInt p_usda_zones0)) as zs eqn:Hzs.
  unfold insert_params, getitem, get_default.
  eval_lookups.
  reflexivity.
Qed.

Lemma getitem_completed_name c wish r w :
  getitem_obj (PDict (completed c wish (fragment_of r))) "common_name" w
  = (inr (PStr (p_common_name r)), w).
Proof.
  unfold getitem_obj, completed. rewrite !dict_get_set.
  repeat (destruct (decide _) as [Heq|_]; [discriminate Heq|]).
  destruct r. reflexivity.
Qed.


(** An answer that is a JSON object without [common_name] is not
    archived: [save_plant] raises [KeyError] through the page, the table
    is as it was and the connection stays open. *)
Theorem submit_incomplete_answer_raises e c common scientific desc wish w text d :
  form_empty common scientific desc = false -> has_key e = true ->
  connect_fault e = None ->
  remote e (prompt_of common scientific desc) = inr text ->
  json_loads text = inr (PDict d) -> d <> [] ->
  dict_get (str "common_name") d = None ->
  research_lab_submit e c common scientific desc wish w
  = (inl (KeyError "common_name"),
     with_open (S (open_conns w)) (after_call (prompt_of common scientific desc) w)).
Proof.
  intros Hf Hkey Hc Hr Hj Hd Hmiss.
  rewrite (submit_with_answer e c _ _ _ wish w text d Hf Hkey Hr Hj Hd).
  apply bind_raise. unfold save_plant.
  rewrite (bind_ok _ _ _ _ _ (connect_ok e DB_NAME _ Hc)).
  apply bind_raise.
  assert (dict_to_map (completed c wish d) !! "id" = Some (PStr (now_timestamp c)))
    as Hid.
  { rewrite dict_to_map_lookup. unfold completed. rewrite !dict_get_set.
    repeat (destruct (decide _) as [Heq|_]; [discriminate Heq|]).
    destruct (decide (str "id" = str "id")) as [_|Hne]; [reflexivity|contradiction]. }
  assert (dict_to_map (completed c wish d) !! "common_name" = None) as Hname.
  { rewrite dict_to_map_lookup. unfold completed. rewrite !dict_get_set.
    repeat (destruct (decide _) as [Heq|_]; [discriminate Heq|]).
    exact Hmiss. }
  unfold insert_params.
  rewrite (bind_ok _ _ _ (PStr (now_timestamp c)) _)
    by (unfold getitem; rewrite Hid; reflexivity).
  apply bind_raise. unfold getitem. rewrite Hname. reflexivity.
Qed.

(** An answer that is JSON but not an object (a list, a number, a text)
    is not archived: the assignment of the id raises [TypeError] through
    the page before any connection is opened. *)
Theorem submit_non_object_answer_raises e c common scientific desc wish w text v :
  form_empty common scientific desc = false -> has_key e = true ->
  remote e (prompt_of common scientific desc) = inr text ->
  json_loads text = inr v -> truthy v = true -> (forall d, v <> PDict d) ->
  research_lab_submit e c common scientific desc wish w
  = (inl TypeError, after_call (prompt_of common scientific desc) w).
Proof.
  intros Hf Hkey Hr Hj Hv Hnd. rewrite (submit_nonempty _ _ _ _ _ _ _ Hf).
  rewrite (bind_ok _ _ _ _ _ (perform_research_ok e _ _ _ w text v Hkey Hr Hj)).
  rewrite Hv. apply bind_raise.
  destruct v; try reflexivity. destruct (Hnd kvs eq_refl).
Qed.

(** A failure of the storage layer while the page archives an answer
    is not handled by the page either: the exception leaves the handler,
    nothing is announced, and the table is as it was. *)
Theorem submit_storage_failure_escapes e c common scientific desc wish w rows text r err :
  form_empty common scientific desc = false -> has_key e = true ->
  connect_fault e = None -> execute_fault e = Some err ->
  remote e (prompt_of common scientific desc) = inr text ->
  json_loads text = inr (PDict (fragment_of r)) ->
  storable (archived c wish r) = true -> db_table w = Some rows ->
  research_lab_submit e c common scientific desc wish w
  = (inl (SqliteError err),
     with_open (S (open_conns w)) (after_call (prompt_of common scientific desc) w)).
Proof.
  intros Hf Hkey Hc Hx Hr Hj Hs Ht.
  rewrite (submit_with_answer e c _ _ _ wish w text _ Hf Hkey Hr Hj)
    by discriminate.
  apply bind_raise. unfold save_plant.
  rewrite (bind_ok _ _ _ _ _ (connect_ok e DB_NAME _ Hc)).
  rewrite (bind_ok _ _ _ _ _ (insert_params_completed c wish r _)).
  apply bind_raise.
  unfold execute_insert_or_replace, conn_view. cbn [txn].
  rewrite (bind_ok _ _ _ (Some rows) _) by (cbn; rewrite Ht; reflexivity).
  change (negb (length (params_of (archived c wish r)) =? length plants_columns)%nat)
    with false.
  cbv iota.
  rewrite (bind_ok _ _ _ (stored_row (archived c wish r)) _)
    by (rewrite (adapt_params _ Hs); reflexivity).
  rewrite Hx. reflexivity.
Qed.

End PageProperties.

Lemma submit_without_key_archives_nothing_witness :
  research_lab_submit quiet_env example_clock (str "Aloe") [] [] false empty_store
  = (inr [], with_note offline_warning empty_store).
Proof.
  apply (submit_without_key_archives_nothing quiet_env example_clock
           (str "Aloe") [] [] false empty_store); reflexivity.
Defined.


Lemma submit_incomplete_answer_raises_witness :
  research_lab_submit (keyed_env (inr partial_answer)) example_clock
    (str "Aloe") [] [] true empty_store
  = (inl (KeyError "common_name"),
     with_open (S (open_conns empty_store))
       (after_call (prompt_of (str "Aloe") [] []) empty_store)).
Proof.
  apply (submit_incomplete_answer_raises (keyed_env (inr partial_answer))
           example_clock (str "Aloe") [] [] true empty_store partial_answer
           [(str "scientific_name", PStr (str "Aloe vera"))]);
    first [reflexivity|discriminate].
Defined.

Lemma submit_non_object_answer_raises_witness :
  research_lab_submit (keyed_env (inr (str "[1]"))) example_clock
    (str "Aloe") [] [] true empty_store
  = (inl TypeError, after_call (prompt_of (str "Aloe") [] []) empty_store).
Proof.
  apply (submit_non_object_answer_raises (keyed_env (inr (str "[1]")))
           example_clock (str "Aloe") [] [] true empty_store (str "[1]")
           (PList [PInt 1]));
    first [reflexivity|discriminate].
Defined.


Lemma submit_storage_failure_escapes_witness :
  research_lab_submit
    {| connect_fault := None;
       execute_fault := Some (OperationalError "database is locked");
       commit_fault := None; query_fault := None;
       secrets := {[ "API_KEY" := PStr (str "k-123") ]}; environ := ∅;
       remote := fun _ => inr aloe_answer |}
    example_clock (str "Aloe") [] [] false empty_store
  = (inl (SqliteError (OperationalError "database is locked")),
     with_open (S (open_conns empty_store))
       (after_call (prompt_of (str "Aloe") [] []) empty_store)).
Proof.
  apply (submit_storage_failure_escapes _ example_clock
           (str "Aloe") [] [] false empty_store [] aloe_answer aloe);
    reflexivity.
Defined.

Section MissingFields.
Context `{Float64}.

Lemma dumps_cases v w :
  dumps v w = (inl TypeError, w) \/ exists t, dumps v w = (inr (PStr t), w).
Proof.
  unfold dumps, bind, lift, json_dumps.
  destruct (json_encode v) as [t|]; [right; exists t|left]; reflexivity.
Qed.

Ltac missing_step p w :=
  lazymatch goal with
  | |- exists ex, bind (getitem p ?key) _ w = _ /\ _ =>
      let Hkey := fresh "Hkey" in
      let v := fresh "v" in
      destruct (p !! key) as [v|] eqn:Hkey;
      [ rewrite (bind_ok _ _ w v w) by (unfold getitem; rewrite Hkey; reflexivity)
      | exists (KeyError key); split;
        [ apply bind_raise; unfold getitem; rewrite Hkey; reflexivity
        | right; exists key; split; [reflexivity|split; [cbn; tauto|exact Hkey]] ] ]
  | |- exists ex, bind (dumps ?v) _ w = _ /\ _ =>
      let Hd := fresh "Hd" in
      let t := fresh "t" in
      destruct (dumps_cases v w) as [Hd|(t & Hd)];
      [ exists TypeError; split; [apply bind_raise; exact Hd|left; reflexivity]
      | rewrite (bind_ok _ _ w (PStr t) w) by exact Hd ]
  end.

Lemma insert_params_missing p w k :
  In k required_fields -> p !! k = None ->
  exists ex,
    insert_params p w = (inl ex, w)
    /\ (ex = TypeError
        \/ exists k', ex = KeyError k' /\ In k' required_fields /\ p !! k' = None).
Proof.
  intros Hin Hk. unfold insert_params.
  repeat missing_step p w.
  exfalso. cbn in Hin.
  repeat (destruct Hin as [<-|Hin]; [congruence|]). exact Hin.
Qed.


End MissingFields.

